(** * x-fas: booking lifecycle of the parcel-shipment backend

    A shallow embedding of [routes/booking.py] and
    [services/carrier_service.py].  The Mongo collections become lists of
    typed documents, every handler becomes a computation in a small
    state-and-exception monad over the database, and the database calls a
    handler issues are recorded in a trace. *)

From Stdlib Require Import String Ascii List ZArith Bool Lia.
Import ListNotations.
Open Scope string_scope.

(** ** Data model *)

(** [datetime] values, as a count of clock ticks. *)
Definition Time := Z.

(** Modelled from the spec: the enumeration [ShipmentStatus] of
    [models/shipment.py].  The routes name [DELIVERED], [CANCELLED] and [RETURNED]; the other members
    are the states of the forward sequence, in the spec's order. *)
Inductive ShipmentStatus : Type :=
| PENDING
| CONFIRMED
| PICKED_UP
| IN_TRANSIT
| OUT_FOR_DELIVERY
| DELIVERED
| CANCELLED
| RETURNED.

Definition ShipmentStatus_eqb (a b : ShipmentStatus) : bool :=
  match a, b with
  | PENDING, PENDING | CONFIRMED, CONFIRMED | PICKED_UP, PICKED_UP
  | IN_TRANSIT, IN_TRANSIT | OUT_FOR_DELIVERY, OUT_FOR_DELIVERY
  | DELIVERED, DELIVERED | CANCELLED, CANCELLED | RETURNED, RETURNED => true
  | _, _ => false
  end.

(** Python's [x in xs] on a list of enumeration members. *)
Definition status_in (x : ShipmentStatus) (xs : list ShipmentStatus) : bool :=
  existsb (ShipmentStatus_eqb x) xs.

(** One entry of [Shipment.events]. *)
Record TrackingEvent : Type := mkEvent {
  ev_timestamp : Time;
  ev_status : ShipmentStatus;
  ev_location : string;
  ev_description : string
}.

(** Modelled from the spec: the structure stored under [carrier_info]
    (tracking number, carrier name, label metadata); its declaration is in
    [models/shipment.py]. *)
Record CarrierInfo : Type := mkCarrierInfo {
  tracking_number : option string;
  carrier : string;
  label_url : option string
}.

(** Modelled from the spec: the fields of the [Shipment] document the
    handlers read and write. *)
Record Shipment : Type := mkShipment {
  id : string;
  user_id : string;
  status : ShipmentStatus;
  carrier_info : option CarrierInfo;
  events : list TrackingEvent;
  created_at : Time;
  updated_at : Time;
  notes : option string
}.

(** One offer inside [quote.carrier_quotes]. *)
Record CarrierQuote : Type := mkCarrierQuote {
  carrier_name : string;
  price : Z
}.

(** A document of [db.quotes].  [carrier_quotes] may be missing from the
    document ([quote_data.get("carrier_quotes", [])]); the three fields
    written by [create_booking] are kept as the handler writes them. *)
Record Quote : Type := mkQuote {
  quote_id_of : string;
  carrier_quotes : option (list CarrierQuote);
  quote_status : string;
  selected_carrier : option string;
  used_at : option Time
}.

Record User : Type := mkUser { user_ident : string }.

(** Request bodies: [ShipmentCreate] and [ShipmentUpdate]. *)
Record ShipmentCreate : Type := mkShipmentCreate {
  req_quote_id : option string;
  req_carrier_name : option string;
  req_notes : option string
}.

Record ShipmentUpdate : Type := mkShipmentUpdate {
  upd_notes : option string;
  upd_tracking_number : option string
}.

(** ** The document store *)

(** The keys [update_booking] puts into [update_data], with their values. *)
Inductive FieldUpdate : Type :=
| SetNotes (v : string)
| SetTrackingNumber (v : string)
| SetUpdatedAt (v : Time).

(** The [$set] document [create_booking] sends to [db.quotes]. *)
Record QuoteMark : Type := mkQuoteMark {
  mark_status : string;
  mark_selected_carrier : option string;
  mark_used_at : Time
}.

(** The calls a handler makes on the database, in the order it makes them. *)
Inductive DbOp : Type :=
| OpFindShipment (booking_id : string)
| OpFindQuote (qid : string)
| OpInsertShipment (s : Shipment)
| OpUpdateQuote (qid : string) (m : QuoteMark)
| OpSetShipmentFields (booking_id : string) (fs : list FieldUpdate)
| OpSetShipment (booking_id : string) (s : Shipment).

Definition is_write (op : DbOp) : bool :=
  match op with
  | OpFindShipment _ | OpFindQuote _ => false
  | _ => true
  end.

Record Db : Type := mkDb {
  shipments : list Shipment;
  quotes : list Quote;
  trace : list DbOp
}.

(** What a handler can raise: FastAPI's [HTTPException], or any other
    exception, which FastAPI turns into a 500. *)
Inductive Exn : Type :=
| HTTPException (status_code : nat) (detail : string)
| Exception (msg : string).

Definition HTTP_400_BAD_REQUEST : nat := 400.
Definition HTTP_403_FORBIDDEN : nat := 403.
Definition HTTP_404_NOT_FOUND : nat := 404.
Definition HTTP_500_INTERNAL_SERVER_ERROR : nat := 500.

(** State and exceptions: a raise keeps the writes made before it. *)
Definition M (A : Type) : Type := Db -> (Exn + A) * Db.

Definition ret {A : Type} (a : A) : M A := fun db => (inr a, db).

Definition bind {A B : Type} (m : M A) (k : A -> M B) : M B :=
  fun db =>
    match m db with
    | (inl e, db') => (inl e, db')
    | (inr a, db') => k a db'
    end.

Definition raise {A : Type} (e : Exn) : M A := fun db => (inl e, db).

(** [try: m except Exception as e: h e]. *)
Definition try_except {A : Type} (m : M A) (h : Exn -> M A) : M A :=
  fun db =>
    match m db with
    | (inl e, db') => h e db'
    | (inr a, db') => (inr a, db')
    end.

(** The database after one more call has been recorded. *)
Definition logged (op : DbOp) (db : Db) : Db :=
  mkDb (shipments db) (quotes db) (trace db ++ [op]).

Definition log (op : DbOp) : M unit :=
  fun db => (inr tt, logged op db).

Declare Scope db_scope.
Delimit Scope db_scope with db.
Notation "x <- m ;; k" := (bind m (fun x => k))
  (at level 100, m at next level, right associativity) : db_scope.
Notation "m ;;; k" := (bind m (fun _ => k))
  (at level 100, right associativity) : db_scope.
Open Scope db_scope.

(** [update_one]: the first document the filter matches is rewritten, the
    others are left alone; no match, no change. *)
Fixpoint update_first {A : Type} (p : A -> bool) (f : A -> A) (l : list A) : list A :=
  match l with
  | [] => []
  | x :: rest => if p x then f x :: rest else x :: update_first p f rest
  end.

Definition has_id (booking_id : string) (s : Shipment) : bool :=
  String.eqb (id s) booking_id.

Definition quote_has_id (qid : string) (q : Quote) : bool :=
  String.eqb (quote_id_of q) qid.

(** [db.shipments.find_one({"id": booking_id})] *)
Definition find_one_shipment (booking_id : string) : M (option Shipment) :=
  log (OpFindShipment booking_id) ;;;
  fun db => (inr (find (has_id booking_id) (shipments db)), db).

(** [db.quotes.find_one({"id": qid})] *)
Definition find_one_quote (qid : string) : M (option Quote) :=
  log (OpFindQuote qid) ;;;
  fun db => (inr (find (quote_has_id qid) (quotes db)), db).

(** [db.shipments.insert_one(shipment.dict())] *)
Definition insert_one_shipment (s : Shipment) : M unit :=
  log (OpInsertShipment s) ;;;
  fun db => (inr tt, mkDb (shipments db ++ [s]) (quotes db) (trace db)).

Definition mark_quote (m : QuoteMark) (q : Quote) : Quote :=
  mkQuote (quote_id_of q) (carrier_quotes q)
          (mark_status m) (mark_selected_carrier m) (Some (mark_used_at m)).

(** [db.quotes.update_one({"id": qid}, {"$set": {...}})] *)
Definition update_one_quote (qid : string) (m : QuoteMark) : M unit :=
  log (OpUpdateQuote qid m) ;;;
  fun db =>
    (inr tt, mkDb (shipments db)
                  (update_first (quote_has_id qid) (mark_quote m) (quotes db))
                  (trace db)).

(** One key of a [$set] on a shipment document.  The dotted path
    [carrier_info.tracking_number] cannot be created under a [carrier_info]
    that is null: the store refuses the write. *)
Definition apply_field (s : Shipment) (f : FieldUpdate) : option Shipment :=
  match f with
  | SetNotes v =>
      Some (mkShipment (id s) (user_id s) (status s) (carrier_info s)
                       (events s) (created_at s) (updated_at s) (Some v))
  | SetUpdatedAt v =>
      Some (mkShipment (id s) (user_id s) (status s) (carrier_info s)
                       (events s) (created_at s) v (notes s))
  | SetTrackingNumber v =>
      match carrier_info s with
      | Some ci =>
          Some (mkShipment (id s) (user_id s) (status s)
                           (Some (mkCarrierInfo (Some v) (carrier ci) (label_url ci)))
                           (events s) (created_at s) (updated_at s) (notes s))
      | None => None
      end
  end.

Fixpoint apply_fields (s : Shipment) (fs : list FieldUpdate) : option Shipment :=
  match fs with
  | [] => Some s
  | f :: rest =>
      match apply_field s f with
      | Some s' => apply_fields s' rest
      | None => None
      end
  end.

Definition write_error : string :=
  "Cannot create field 'tracking_number' in element {carrier_info: null}".

(** [db.shipments.update_one({"id": booking_id}, {"$set": update_data})]:
    all the keys are written, or none is and the call raises. *)
Definition update_one_shipment_fields (booking_id : string) (fs : list FieldUpdate)
  : M unit :=
  log (OpSetShipmentFields booking_id fs) ;;;
  fun db =>
    match find (has_id booking_id) (shipments db) with
    | None => (inr tt, db)
    | Some s =>
        match apply_fields s fs with
        | Some s' =>
            (inr tt, mkDb (update_first (has_id booking_id) (fun _ => s') (shipments db))
                          (quotes db) (trace db))
        | None => (inl (Exception write_error), db)
        end
    end.

(** [db.shipments.update_one({"id": booking_id}, {"$set": shipment.dict()})]:
    every field of the matched document is overwritten. *)
Definition update_one_shipment (booking_id : string) (s : Shipment) : M unit :=
  log (OpSetShipment booking_id s) ;;;
  fun db =>
    (inr tt, mkDb (update_first (has_id booking_id) (fun _ => s) (shipments db))
                  (quotes db) (trace db)).

(** ** The booking service, as the routes see it *)

(** The four methods of [BookingService] the routes call; the routes are
    verified against any implementation of them.  [Env] is
    whatever the service reads besides its arguments (the clock, the
    identifier generator); a method that raises returns the exception's
    message on the left. *)
Record BookingService (Env Response : Type) : Type := mkBookingService {
  svc_create_booking :
    Env -> ShipmentCreate -> string -> option CarrierQuote -> string + Shipment;
  update_shipment_status :
    Env -> Shipment -> ShipmentStatus -> string -> string -> string + Shipment;
  simulate_shipment_progress : Env -> Shipment -> string + Shipment;
  process_shipment_response : Shipment -> Response
}.

Arguments svc_create_booking {Env Response} _ _ _ _ _.
Arguments update_shipment_status {Env Response} _ _ _ _ _ _.
Arguments simulate_shipment_progress {Env Response} _ _ _.
Arguments process_shipment_response {Env Response} _ _.

Definition lift_svc {A : Type} (r : string + A) : M A :=
  match r with
  | inl msg => raise (Exception msg)
  | inr a => ret a
  end.

(** [str(e)] in the handler of [create_booking].  Only plain exceptions
    are raised inside its [try] block; for an [HTTPException] the detail
    is taken. *)
Definition str_exn (e : Exn) : string :=
  match e with
  | Exception msg => msg
  | HTTPException _ d => d
  end.

(** Truth value of an optional string: [None] and the empty string are
    false. *)
Definition truthy (o : option string) : option string :=
  match o with
  | Some s => if String.eqb s "" then None else Some s
  | None => None
  end.

Definition get_carrier_quotes (q : Quote) : list CarrierQuote :=
  match carrier_quotes q with
  | Some l => l
  | None => []
  end.

(** [cq["carrier_name"] == booking_request.carrier_name] *)
Definition name_matches (cq : CarrierQuote) (name : option string) : bool :=
  match name with
  | Some n => String.eqb (carrier_name cq) n
  | None => false
  end.

(** The loop of [create_booking] over the quote's offers: the first match
    is kept and the loop is left; without a match [carrier_quote] stays
    [None]. *)
Fixpoint select_quote (offers : list CarrierQuote) (name : option string)
  : option CarrierQuote :=
  match offers with
  | [] => None
  | cq :: rest =>
      if name_matches cq name then Some cq else select_quote rest name
  end.

(** The offer [create_booking] hands to the service: what its lookup
    leaves in [carrier_quote]. *)
Definition carrier_quote_for (booking_request : ShipmentCreate) (db : Db)
  : option CarrierQuote :=
  match truthy (req_quote_id booking_request) with
  | Some qid =>
      match find (quote_has_id qid) (quotes db) with
      | Some q =>
          select_quote (get_carrier_quotes q) (req_carrier_name booking_request)
      | None => None
      end
  | None => None
  end.

(** The trace of a successful [create_booking]. *)
Definition create_booking_ops (booking_request : ShipmentCreate) (shipment : Shipment)
  : list DbOp :=
  match truthy (req_quote_id booking_request) with
  | Some qid =>
      [ OpFindQuote qid;
        OpInsertShipment shipment;
        OpUpdateQuote qid (mkQuoteMark "used" (req_carrier_name booking_request)
                                       (created_at shipment)) ]
  | None => [ OpInsertShipment shipment ]
  end.

Section Routes.

Variables Env Response : Type.
Variable booking_service : BookingService Env Response.
(** How [{shipment.status}] is rendered inside an f-string; it depends on
    the declaration of the enumeration. *)
Variable format_status : ShipmentStatus -> string.

(** Lines 33-41 of [create_booking]. *)
Definition lookup_carrier_quote (booking_request : ShipmentCreate)
  : M (option CarrierQuote) :=
  match truthy (req_quote_id booking_request) with
  | Some qid =>
      quote_data <- find_one_quote qid ;;
      match quote_data with
      | Some q =>
          ret (select_quote (get_carrier_quotes q)
                            (req_carrier_name booking_request))
      | None => ret None
      end
  | None => ret None
  end.

(** [POST /bookings] *)
Definition create_booking (env : Env) (booking_request : ShipmentCreate)
                          (current_user : User) : M Response :=
  try_except
    (carrier_quote <- lookup_carrier_quote booking_request ;;
     shipment <- lift_svc (svc_create_booking booking_service env booking_request
                             (user_ident current_user) carrier_quote) ;;
     insert_one_shipment shipment ;;;
     match truthy (req_quote_id booking_request) with
     | Some qid =>
         update_one_quote qid
           (mkQuoteMark "used" (req_carrier_name booking_request)
                        (created_at shipment))
     | None => ret tt
     end ;;;
     ret (process_shipment_response booking_service shipment))
    (fun e =>
       raise (HTTPException HTTP_500_INTERNAL_SERVER_ERROR
                            ("Error creating booking: " ++ str_exn e))).

(** The first lines of the four handlers on one booking: find the
    document, 404 if there is none, 403 if it is someone else's. *)
Definition load_owned (booking_id : string) (current_user : User) : M Shipment :=
  shipment_data <- find_one_shipment booking_id ;;
  match shipment_data with
  | None => raise (HTTPException HTTP_404_NOT_FOUND "Booking not found")
  | Some shipment =>
      if negb (String.eqb (user_id shipment) (user_ident current_user))
      then raise (HTTPException HTTP_403_FORBIDDEN "Access denied")
      else ret shipment
  end.

(** [GET /bookings/{booking_id}] *)
Definition get_booking (booking_id : string) (current_user : User) : M Response :=
  shipment <- load_owned booking_id current_user ;;
  ret (process_shipment_response booking_service shipment).

Definition update_data_of (update_request : ShipmentUpdate) : list FieldUpdate :=
  match upd_notes update_request with
  | Some n => [SetNotes n]
  | None => []
  end ++
  match upd_tracking_number update_request with
  | Some t => [SetTrackingNumber t]
  | None => []
  end.

(** [PUT /bookings/{booking_id}] *)
Definition update_booking (booking_id : string) (update_request : ShipmentUpdate)
                          (current_user : User) : M Response :=
  shipment <- load_owned booking_id current_user ;;
  shipment <-
    match update_data_of update_request with
    | [] => ret shipment
    | update_data =>
        update_one_shipment_fields booking_id
          (update_data ++ [SetUpdatedAt (updated_at shipment)]) ;;;
        shipment_data <- find_one_shipment booking_id ;;
        match shipment_data with
        | Some s => ret s
        | None => raise (Exception "argument after ** must be a mapping, not NoneType")
        end
    end ;;
  ret (process_shipment_response booking_service shipment).

(** [DELETE /bookings/{booking_id}] *)
Definition cancel_booking (env : Env) (booking_id : string) (current_user : User)
  : M (list (string * string)) :=
  shipment <- load_owned booking_id current_user ;;
  if status_in (status shipment) [DELIVERED; CANCELLED; RETURNED]
  then raise (HTTPException HTTP_400_BAD_REQUEST
                ("Cannot cancel shipment with status: "
                 ++ format_status (status shipment)))
  else
    updated_shipment <-
      lift_svc (update_shipment_status booking_service env shipment CANCELLED
                  "XFas Logistics Hub" "Shipment cancelled by customer") ;;
    update_one_shipment booking_id updated_shipment ;;;
    ret [("message", "Booking cancelled successfully")].

(** [POST /bookings/{booking_id}/simulate-progress] *)
Definition simulate_booking_progress (env : Env) (booking_id : string)
                                     (current_user : User) : M Response :=
  shipment <- load_owned booking_id current_user ;;
  updated_shipment <-
    lift_svc (simulate_shipment_progress booking_service env shipment) ;;
  update_one_shipment booking_id updated_shipment ;;;
  ret (process_shipment_response booking_service updated_shipment).

End Routes.

Arguments create_booking {Env Response} _ _ _ _.
Arguments get_booking {Env Response} _ _ _.
Arguments update_booking {Env Response} _ _ _ _.
Arguments cancel_booking {Env Response} _ _ _ _ _.
Arguments simulate_booking_progress {Env Response} _ _ _ _.

(** ** The lifecycle engine *)

Module Lifecycle.

Inductive LifecycleError : Type :=
| InvalidTransition
| IllegalState.

(** Modelled from the spec: the forward sequence of section 4.1,
    [pending -> confirmed -> picked_up -> in_transit -> out_for_delivery
    -> delivered]. *)
Definition forward_sequence : list ShipmentStatus :=
  [PENDING; CONFIRMED; PICKED_UP; IN_TRANSIT; OUT_FOR_DELIVERY; DELIVERED].

(** Modelled from the spec: [delivered], [cancelled] and [returned] are
    terminal. *)
Definition is_terminal (s : ShipmentStatus) : bool :=
  status_in s [DELIVERED; CANCELLED; RETURNED].

Fixpoint successor_in (l : list ShipmentStatus) (s : ShipmentStatus)
  : option ShipmentStatus :=
  match l with
  | a :: (b :: _) as rest =>
      if ShipmentStatus_eqb a s then Some b else successor_in rest s
  | _ => None
  end.

(** Modelled from the spec: the immediate next state in the forward
    sequence. *)
Definition next_forward (s : ShipmentStatus) : option ShipmentStatus :=
  successor_in forward_sequence s.

(** Modelled from the spec: the allowed next-state set of [update_status]
    (the immediate next state of the sequence, or a jump to [cancelled]
    or [returned] from any state that is not terminal). *)
Definition allowed_next (cur : ShipmentStatus) : list ShipmentStatus :=
  if is_terminal cur then []
  else match next_forward cur with
       | Some n => [n]
       | None => []
       end ++ [CANCELLED; RETURNED].

Definition with_event (now : Time) (new_status : ShipmentStatus)
                      (location description : string) (s : Shipment) : Shipment :=
  mkShipment (id s) (user_id s) new_status (carrier_info s)
             (events s ++ [mkEvent now new_status location description])
             (created_at s) now (notes s).

(** Modelled from the spec: [update_status(shipment, new_status, location,
    description)] of [services/booking_service.py].  The shipment is a
    mutable object: the result pairs what the call returns with the
    record as the call leaves it. *)
Definition update_status (now : Time) (shipment : Shipment)
                         (new_status : ShipmentStatus)
                         (location description : string)
  : (LifecycleError + Shipment) * Shipment :=
  if is_terminal (status shipment) then (inl InvalidTransition, shipment)
  else if negb (status_in new_status (allowed_next (status shipment)))
       then (inl InvalidTransition, shipment)
       else let shipment' := with_event now new_status location description shipment in
            (inr shipment', shipment').

Section Simulation.

(** The text of the synthetic event is not fixed by the spec. *)
Variables synthetic_location synthetic_description : ShipmentStatus -> string.

(** Modelled from the spec: [simulate_progress(shipment)], one step
    along the forward sequence with a synthetic event, nothing at all
    on a terminal shipment.  The result is the record after the call. *)
Definition simulate_progress (now : Time) (shipment : Shipment) : Shipment :=
  if is_terminal (status shipment) then shipment
  else match next_forward (status shipment) with
       | Some n =>
           with_event now n (synthetic_location n) (synthetic_description n)
                      shipment
       | None => shipment
       end.

End Simulation.

(** Modelled from the spec: [create_booking(request, owner_id, optional
    selected_quote)], a new shipment in state [pending] whose carrier
    information comes from the chosen offer when there is one. *)
Definition new_booking (now : Time) (fresh_id : string)
                       (request : ShipmentCreate) (owner_id : string)
                       (selected_quote : option CarrierQuote) : Shipment :=
  mkShipment fresh_id owner_id PENDING
             (option_map (fun cq => mkCarrierInfo None (carrier_name cq) None)
                         selected_quote)
             [] now now (req_notes request).

End Lifecycle.

(** ** The carrier service *)

Module CarrierService.

#[local] Set Warnings "-register-all".

(** Python values found in the dictionaries of the service. *)
Inductive Value : Type :=
| VStr (s : string)
| VBool (b : bool)
| VList (l : list Value)
| VDict (d : list (string * Value)).

Definition Dict : Type := list (string * Value).

Fixpoint get {A : Type} (d : list (string * A)) (k : string) : option A :=
  match d with
  | [] => None
  | (k', v) :: rest => if String.eqb k' k then Some v else get rest k
  end.

(** The instance: [self.carrier_configs]. *)
Record Self : Type := mkSelf { carrier_configs : list (string * Dict) }.

Definition init : Self :=
  mkSelf
    [ ("DHL", [ ("api_key", VStr "dhl_api_key");
                ("base_url", VStr "https://api.dhl.com");
                ("enabled", VBool false) ]);
      ("FedEx", [ ("api_key", VStr "fedex_api_key");
                  ("base_url", VStr "https://apis.fedex.com");
                  ("enabled", VBool false) ]);
      ("UPS", [ ("api_key", VStr "ups_api_key");
                ("base_url", VStr "https://onlinetools.ups.com");
                ("enabled", VBool false) ]) ].

(** [self.carrier_configs[name]["enabled"]] *)
Definition enabled (self : Self) (name : string) : option Value :=
  match get (carrier_configs self) name with
  | Some cfg => get cfg "enabled"
  | None => None
  end.

(** [str.lower], on the ASCII letters. *)
Definition lower_ascii (c : ascii) : ascii :=
  let n := nat_of_ascii c in
  if (65 <=? n)%nat && (n <=? 90)%nat then ascii_of_nat (n + 32) else c.

Fixpoint lower (s : string) : string :=
  match s with
  | EmptyString => EmptyString
  | String c rest => String (lower_ascii c) (lower rest)
  end.

Definition _track_dhl (self : Self) (tracking_number : string) : Dict := [].
Definition _track_fedex (self : Self) (tracking_number : string) : Dict := [].
Definition _track_ups (self : Self) (tracking_number : string) : Dict := [].

(** The mock tracking data of the last branch of [track_shipment]. *)
Definition mock_tracking (tracking_number : string) : Dict :=
  [ ("tracking_number", VStr tracking_number);
    ("status", VStr "In Transit");
    ("location", VStr "Mumbai, India");
    ("estimated_delivery", VStr "2025-01-02");
    ("events", VList [ VDict [ ("timestamp", VStr "2025-01-01T10:00:00Z");
                               ("status", VStr "Picked up");
                               ("location", VStr "Mumbai Hub") ] ]) ].

Definition track_shipment (self : Self) (carrier tracking_number : string) : Dict :=
  if String.eqb (lower carrier) "dhl" then _track_dhl self tracking_number
  else if String.eqb (lower carrier) "fedex" then _track_fedex self tracking_number
  else if String.eqb (lower carrier) "ups" then _track_ups self tracking_number
  else mock_tracking tracking_number.

End CarrierService.

(** ** A concrete instance *)

Module Demo.

#[local] Open Scope Z_scope.

(** The clock and the next identifier. *)
Definition Env : Type := (Time * string)%type.

Definition error_message (e : Lifecycle.LifecycleError) : string :=
  match e with
  | Lifecycle.InvalidTransition => "InvalidTransition"
  | Lifecycle.IllegalState => "IllegalState"
  end.

Definition synthetic_location (_ : ShipmentStatus) : string := "XFas Logistics Hub".
Definition synthetic_description (_ : ShipmentStatus) : string := "Simulated progress".

(** The lifecycle engine behind the interface of the routes. *)
Definition engine : BookingService Env Shipment :=
  mkBookingService Env Shipment
    (fun env request owner cq =>
       inr (Lifecycle.new_booking (fst env) (snd env) request owner cq))
    (fun env s new_status location description =>
       match fst (Lifecycle.update_status (fst env) s new_status location description) with
       | inl e => inl (error_message e)
       | inr s' => inr s'
       end)
    (fun env s =>
       inr (Lifecycle.simulate_progress synthetic_location synthetic_description
                                        (fst env) s))
    (fun s => s).

Definition format_status (s : ShipmentStatus) : string :=
  match s with
  | PENDING => "pending"
  | CONFIRMED => "confirmed"
  | PICKED_UP => "picked_up"
  | IN_TRANSIT => "in_transit"
  | OUT_FOR_DELIVERY => "out_for_delivery"
  | DELIVERED => "delivered"
  | CANCELLED => "cancelled"
  | RETURNED => "returned"
  end.

Definition alice : User := mkUser "u-alice".
Definition bob : User := mkUser "u-bob".

Definition dhl_offer : CarrierQuote := mkCarrierQuote "DHL" 500.
Definition fedex_offer : CarrierQuote := mkCarrierQuote "FedEx" 650.

Definition Q1 : Quote :=
  mkQuote "Q1" (Some [dhl_offer; fedex_offer]) "active" None None.

(** Alice's shipment, with a tracking number, last touched at time 100. *)
Definition B1 : Shipment :=
  mkShipment "B1" "u-alice" IN_TRANSIT
             (Some (mkCarrierInfo (Some "AWB1") "DHL" None))
             [mkEvent 100 IN_TRANSIT "Mumbai Hub" "In transit"]
             50 100 None.

(** Alice's shipment, delivered. *)
Definition B2 : Shipment :=
  mkShipment "B2" "u-alice" DELIVERED
             (Some (mkCarrierInfo (Some "AWB2") "DHL" None))
             [mkEvent 90 DELIVERED "Pune" "Delivered"]
             40 90 None.

Definition db0 : Db := mkDb [B1; B2] [Q1] [].

Definition book_dhl : ShipmentCreate := mkShipmentCreate (Some "Q1") (Some "DHL") None.
Definition book_fedex : ShipmentCreate := mkShipmentCreate (Some "Q1") (Some "FedEx") None.
Definition book_bluedart : ShipmentCreate :=
  mkShipmentCreate (Some "Q1") (Some "BlueDart") None.

(** The database after Alice has booked the DHL offer of [Q1] at time 10. *)
Definition db1 : Db := snd (create_booking engine (10, "S1") book_dhl alice db0).

(** ... and after she has booked again on [Q1] at time 20, with FedEx. *)
Definition db2 : Db := snd (create_booking engine (20, "S2") book_fedex alice db1).

Definition patch_notes : ShipmentUpdate :=
  mkShipmentUpdate (Some "call before delivery") None.
Definition patch_tracking : ShipmentUpdate := mkShipmentUpdate None (Some "AWB9").

End Demo.

(** ** The other handlers of [routes/booking.py] *)

(** The filter [{"carrier_info.tracking_number": awb}]: the document has
    carrier information and its tracking number is [awb]. *)
Definition has_tracking_number (awb : string) (s : Shipment) : bool :=
  match carrier_info s with
  | Some ci =>
      match tracking_number ci with
      | Some t => String.eqb t awb
      | None => false
      end
  | None => false
  end.

(** [db.shipments.find_one({"carrier_info.tracking_number": awb})].  The
    queries of the two handlers below are reads on a filter other than the
    id; the store is handed on as it is. *)
Definition find_one_by_tracking_number (awb : string) : M (option Shipment) :=
  fun db => (inr (find (has_tracking_number awb) (shipments db)), db).

(** The query of [get_user_bookings]: the caller's id, and the status when
    a filter is given. *)
Definition matches_query (uid : string) (status_filter : option ShipmentStatus)
                         (s : Shipment) : bool :=
  String.eqb (user_id s) uid &&
  match status_filter with
  | Some st => ShipmentStatus_eqb (status s) st
  | None => true
  end.

Section Tracking.

Variables Env Response : Type.
Variable booking_service : BookingService Env Response.

(** [GET /bookings/track/{awb}], the public lookup. *)
Definition track_shipment (awb : string) : M Response :=
  shipment_data <- find_one_by_tracking_number awb ;;
  match shipment_data with
  | None => raise (HTTPException HTTP_404_NOT_FOUND "Tracking number not found")
  | Some shipment => ret (process_shipment_response booking_service shipment)
  end.

(** What the store does with
    [.sort("created_at", -1).limit(limit).skip(skip)] and
    [to_list(length=limit)] on the documents that match a query: a list of
    documents, or an exception. *)
Variable cursor : list Shipment -> Z -> Z -> string + list Shipment.

Definition find_shipments (query : Shipment -> bool) (limit skip : Z)
  : M (list Shipment) :=
  fun db =>
    (match cursor (filter query (shipments db)) limit skip with
     | inl msg => inl (Exception msg)
     | inr l => inr l
     end, db).

(** [GET /bookings] *)
Definition get_user_bookings (current_user : User) (limit skip : Z)
                             (status_filter : option ShipmentStatus)
  : M (list Response) :=
  shipments_data <-
    find_shipments (matches_query (user_ident current_user) status_filter) limit skip ;;
  ret (map (process_shipment_response booking_service) shipments_data).

End Tracking.

Arguments track_shipment {Env Response} _ _.
Arguments get_user_bookings {Env Response} _ _ _ _ _ _.

(** ** The quote functions of the carrier service *)

Module CarrierQuotes.

Inductive KeyError : Type := mkKeyError (key : string).

(** [d[k]] *)
Definition getitem {A : Type} (d : list (string * A)) (k : string) : KeyError + A :=
  match CarrierService.get d k with
  | Some v => inr v
  | None => inl (mkKeyError k)
  end.

(** Truth value of a Python value. *)
Definition truth (v : CarrierService.Value) : bool :=
  match v with
  | CarrierService.VBool b => b
  | CarrierService.VStr s => negb (String.eqb s "")
  | CarrierService.VList l => match l with [] => false | _ => true end
  | CarrierService.VDict d => match d with [] => false | _ => true end
  end.

Section Quotes.

Variable QuoteRequest : Type.

Definition get_dhl_quote (self : CarrierService.Self) (request : QuoteRequest)
  : KeyError + option CarrierQuote :=
  match getitem (CarrierService.carrier_configs self) "DHL" with
  | inl e => inl e
  | inr cfg =>
      match getitem cfg "enabled" with
      | inl e => inl e
      | inr flag => if negb (truth flag) then inr None else inr None
      end
  end.

Definition get_fedex_quote (self : CarrierService.Self) (request : QuoteRequest)
  : KeyError + option CarrierQuote :=
  match getitem (CarrierService.carrier_configs self) "FedEx" with
  | inl e => inl e
  | inr cfg =>
      match getitem cfg "enabled" with
      | inl e => inl e
      | inr flag => if negb (truth flag) then inr None else inr None
      end
  end.

Definition get_ups_quote (self : CarrierService.Self) (request : QuoteRequest)
  : KeyError + option CarrierQuote :=
  match getitem (CarrierService.carrier_configs self) "UPS" with
  | inl e => inl e
  | inr cfg =>
      match getitem cfg "enabled" with
      | inl e => inl e
      | inr flag => if negb (truth flag) then inr None else inr None
      end
  end.

End Quotes.

(** The configuration with the flag of one carrier switched on. *)
Definition enable (name : string) (self : CarrierService.Self) : CarrierService.Self :=
  CarrierService.mkSelf
    (map (fun entry =>
            if String.eqb (fst entry) name
            then (fst entry,
                  map (fun kv => if String.eqb (fst kv) "enabled"
                                 then (fst kv, CarrierService.VBool true) else kv)
                      (snd entry))
            else entry)
         (CarrierService.carrier_configs self)).

End CarrierQuotes.

(** ** [server.py] *)

Module Server.

(** [sub in s] on strings. *)
Fixpoint contains (sub s : string) : bool :=
  if String.prefix sub s then true
  else match s with
       | EmptyString => false
       | String _ rest => contains sub rest
       end.

Definition ssl_parameters : string :=
  "ssl=true&ssl_cert_reqs=CERT_NONE&tlsAllowInvalidCertificates=true".

(** Lines 37-42: the connection string the client is built from, given
    the value of [MONGO_URL]. *)
Definition mongo_url_of (mongo_url : string) : string :=
  if contains "mongodb+srv://" mongo_url then
    let separator := if contains "?" mongo_url then "&" else "?" in
    mongo_url ++ separator ++ ssl_parameters
  else mongo_url.

Record StatusCheck : Type := mkStatusCheck {
  id : string;
  client_name : string;
  timestamp : Time
}.

Record StatusCheckCreate : Type := mkStatusCheckCreate {
  input_client_name : string
}.

Section StatusChecks.

(** A [datetime] as the store gives it back. *)
Variable stored_time : Time -> Time.

(** [POST /status]: [fresh_id] is the [uuid4] drawn, [now] the clock; the
    collection [db.status_checks] is passed along. *)
Definition create_status_check (fresh_id : string) (now : Time)
                               (input : StatusCheckCreate)
                               (status_checks : list StatusCheck)
  : StatusCheck * list StatusCheck :=
  let status_obj := mkStatusCheck fresh_id (input_client_name input) now in
  (status_obj,
   (status_checks ++ [mkStatusCheck (id status_obj) (client_name status_obj)
                                    (stored_time (timestamp status_obj))])%list).

(** [GET /status]: [find().to_list(1000)] *)
Definition get_status_checks (status_checks : list StatusCheck) : list StatusCheck :=
  firstn 1000 status_checks.

End StatusChecks.

End Server.

(** ** [server_vercel.py] *)

Module Vercel.

Inductive Field : Type :=
| FStr (s : string)
| FTime (t : Time).

Section Globals.

(** A [MongoClient]. *)
Variable Client : Type.

(** [client[db_name]] *)
Definition Database : Type := (Client * string)%type.

(** The module's globals [client] and [db]. *)
Record Globals : Type := mkGlobals {
  client : option Client;
  db : option Database
}.

Definition initial : Globals := mkGlobals None None.

(** [os.environ.get('DB_NAME', 'xfas_logistics')] *)
Variable db_name : string.

(** [get_mongo_client()].  [made] is how the body of the [try] ends if it
    is run: with a client, or with an exception.  The result pairs the
    returned tuple with the globals after the call. *)
Definition get_mongo_client (made : string + Client) (g : Globals)
  : (option Client * option Database) * Globals :=
  match client g with
  | None =>
      match made with
      | inr c => ((Some c, Some (c, db_name)), mkGlobals (Some c) (Some (c, db_name)))
      | inl _ => ((None, None), mkGlobals None None)
      end
  | Some _ => ((client g, db g), g)
  end.

(** [get_database()] *)
Definition get_database (made : string + Client) (g : Globals)
  : (Exn + Database) * Globals :=
  let '((_, database), g') := get_mongo_client made g in
  match database with
  | None => (inl (HTTPException 503 "Database not available"), g')
  | Some d => (inr d, g')
  end.

(** [health_check()]: [ping] is how [client.admin.command('ping')] ends on
    the client it is given. *)
Definition health_check (made : string + Client) (ping : Client -> string + unit)
                        (now : Time) (g : Globals)
  : list (string * Field) * Globals :=
  let '((client, database), g') := get_mongo_client made g in
  match database with
  | None =>
      ([ ("status", FStr "unhealthy");
         ("database", FStr "not_initialized");
         ("error", FStr "Database client not initialized");
         ("timestamp", FTime now) ], g')
  | Some _ =>
      match client with
      | Some c =>
          match ping c with
          | inr _ =>
              ([ ("status", FStr "healthy");
                 ("database", FStr "connected");
                 ("timestamp", FTime now) ], g')
          | inl e =>
              ([ ("status", FStr "unhealthy");
                 ("database", FStr "disconnected");
                 ("error", FStr e);
                 ("timestamp", FTime now) ], g')
          end
      | None =>
          ([ ("status", FStr "unhealthy");
             ("database", FStr "disconnected");
             ("error", FStr "'NoneType' object has no attribute 'admin'");
             ("timestamp", FTime now) ], g')
      end
  end.

(** [shutdown_db_client()]: the client that is closed, if one is held, and
    the globals after the call. *)
Definition shutdown_db_client (g : Globals) : option Client * Globals :=
  match client g with
  | Some c => (Some c, g)
  | None => (None, g)
  end.

(** The calls that reach the globals, with what the outside world does at
    each. *)
Inductive Call : Type :=
| CallGetMongoClient (made : string + Client)
| CallGetDatabase (made : string + Client)
| CallHealthCheck (made : string + Client) (ping : Client -> string + unit) (now : Time)
| CallShutdown.

Definition step (g : Globals) (c : Call) : Globals :=
  match c with
  | CallGetMongoClient made => snd (get_mongo_client made g)
  | CallGetDatabase made => snd (get_database made g)
  | CallHealthCheck made ping now => snd (health_check made ping now g)
  | CallShutdown => snd (shutdown_db_client g)
  end.

Definition run (calls : list Call) (g : Globals) : Globals :=
  fold_left step calls g.

End Globals.

Arguments mkGlobals {Client} _ _.
Arguments client {Client} _.
Arguments db {Client} _.
Arguments initial {Client}.
Arguments get_mongo_client {Client} _ _ _.
Arguments get_database {Client} _ _ _.
Arguments health_check {Client} _ _ _ _ _.
Arguments CallGetMongoClient {Client} _.
Arguments CallGetDatabase {Client} _.
Arguments CallHealthCheck {Client} _ _ _.
Arguments CallShutdown {Client}.
Arguments shutdown_db_client {Client} _.
Arguments step {Client} _ _ _.
Arguments run {Client} _ _ _.

End Vercel.

(** ** More concrete data *)

Module Samples.

#[local] Open Scope Z_scope.

Fixpoint insert_desc (s : Shipment) (l : list Shipment) : list Shipment :=
  match l with
  | [] => [s]
  | x :: rest =>
      if created_at x <? created_at s then s :: l else x :: insert_desc s rest
  end.

(** A store that sorts by [created_at], newest first, then skips and cuts. *)
Definition cursor (docs : list Shipment) (limit skip : Z) : string + list Shipment :=
  if skip <? 0 then inl "skip must be >= 0"
  else if limit <? 0 then inl "length must be non-negative"
  else inr (firstn (Z.to_nat limit)
                   (skipn (Z.to_nat skip) (fold_right insert_desc [] docs))).

(** Bob's shipment, which carries the tracking number [AWB7]. *)
Definition B3 : Shipment :=
  mkShipment "B3" "u-bob" PENDING
             (Some (mkCarrierInfo (Some "AWB7") "UPS" None))
             [] 60 60 None.

Definition db3 : Db := mkDb [Demo.B1; Demo.B2; B3] [Demo.Q1] [].

Definition book_plain : ShipmentCreate := mkShipmentCreate (Some "") (Some "DHL") None.

Definition patch_nothing : ShipmentUpdate := mkShipmentUpdate None None.

(** A service whose methods all raise. *)
Definition failing : BookingService Demo.Env Shipment :=
  mkBookingService Demo.Env Shipment
    (fun _ _ _ _ => inl "service down")
    (fun _ _ _ _ _ => inl "service down")
    (fun _ _ => inl "service down")
    (fun s => s).

Definition millis (t : Time) : Time := 1000 * (t / 1000).

End Samples.

(** ** Running the handlers *)

Lemma status_in_In (x : ShipmentStatus) (xs : list ShipmentStatus) :
  status_in x xs = true <-> In x xs.
Proof.
  unfold status_in. rewrite existsb_exists. split.
  - intros [y [Hy Heq]]. destruct x, y; simpl in Heq; try discriminate; exact Hy.
  - intros H. exists x. split; [exact H | destruct x; reflexivity].
Qed.

Lemma find_update_first {A : Type} (p : A -> bool) (f : A -> A) (l : list A) (x : A) :
  find p l = Some x -> p (f x) = true ->
  find p (update_first p f l) = Some (f x).
Proof.
  induction l as [|y l IH]; simpl; [discriminate|].
  destruct (p y) eqn:Hy; intros Hfind Hp.
  - injection Hfind as ->. simpl. rewrite Hp. reflexivity.
  - simpl. rewrite Hy. auto.
Qed.

Lemma update_first_no_match {A : Type} (p : A -> bool) (f : A -> A) (l : list A) :
  find p l = None -> update_first p f l = l.
Proof.
  induction l as [|y l IH]; simpl; [reflexivity|].
  destruct (p y); [discriminate|]. intros H. rewrite IH; auto.
Qed.

(** [update_one] rewrites documents the filter matches, and no other. *)
Lemma update_first_pointwise {A : Type} (p : A -> bool) (f : A -> A) (l : list A) :
  Forall2 (fun a b => b = a \/ (p a = true /\ b = f a)) l (update_first p f l).
Proof.
  assert (Hsame : forall l' : list A,
             Forall2 (fun a b => b = a \/ (p a = true /\ b = f a)) l' l').
  { induction l' as [|y l' IH]; constructor; auto. }
  induction l as [|y l IH]; simpl; [constructor|].
  destruct (p y) eqn:Hy; constructor; auto.
Qed.


Section RoutesFacts.

Variables Env Response : Type.
Variable svc : BookingService Env Response.
Variable format_status : ShipmentStatus -> string.

(** The three ways the common prologue of the handlers ends. *)
Lemma load_owned_run (booking_id : string) (u : User) (db : Db) :
  load_owned booking_id u db =
  match find (has_id booking_id) (shipments db) with
  | None =>
      (inl (HTTPException HTTP_404_NOT_FOUND "Booking not found"),
       logged (OpFindShipment booking_id) db)
  | Some s =>
      if String.eqb (user_id s) (user_ident u)
      then (inr s, logged (OpFindShipment booking_id) db)
      else (inl (HTTPException HTTP_403_FORBIDDEN "Access denied"),
            logged (OpFindShipment booking_id) db)
  end.
Proof.
  unfold load_owned, find_one_shipment, bind, log, raise, ret. simpl.
  destruct (find (has_id booking_id) (shipments db)) as [s|]; [|reflexivity].
  destruct (String.eqb (user_id s) (user_ident u)); reflexivity.
Qed.

Lemma load_owned_denied (booking_id : string) (u : User) (db : Db) (s : Shipment) :
  find (has_id booking_id) (shipments db) = Some s ->
  user_id s <> user_ident u ->
  load_owned booking_id u db =
  (inl (HTTPException HTTP_403_FORBIDDEN "Access denied"),
   logged (OpFindShipment booking_id) db).
Proof.
  intros Hfind Hneq. rewrite load_owned_run, Hfind.
  destruct (String.eqb_spec (user_id s) (user_ident u)); [contradiction|reflexivity].
Qed.

Lemma lookup_carrier_quote_run (request : ShipmentCreate) (db : Db) :
  lookup_carrier_quote request db =
  (inr (carrier_quote_for request db),
   match truthy (req_quote_id request) with
   | Some qid => logged (OpFindQuote qid) db
   | None => db
   end).
Proof.
  unfold lookup_carrier_quote, carrier_quote_for.
  destruct (truthy (req_quote_id request)) as [qid|]; [|reflexivity].
  unfold find_one_quote, bind, log, ret. simpl.
  destruct (find (quote_has_id qid) (quotes db)); reflexivity.
Qed.

(** What [create_booking] does, by the outcome of the service call. *)
Lemma create_booking_run (env : Env) (request : ShipmentCreate) (u : User) (db : Db) :
  create_booking svc env request u db =
  match svc_create_booking svc env request (user_ident u)
                           (carrier_quote_for request db) with
  | inl msg =>
      (inl (HTTPException HTTP_500_INTERNAL_SERVER_ERROR
                          ("Error creating booking: " ++ msg)),
       match truthy (req_quote_id request) with
       | Some qid => logged (OpFindQuote qid) db
       | None => db
       end)
  | inr shipment =>
      (inr (process_shipment_response svc shipment),
       mkDb (shipments db ++ [shipment])
            (match truthy (req_quote_id request) with
             | Some qid =>
                 update_first (quote_has_id qid)
                   (mark_quote (mkQuoteMark "used" (req_carrier_name request)
                                            (created_at shipment)))
                   (quotes db)
             | None => quotes db
             end)
            (trace db ++ create_booking_ops request shipment))
  end.
Proof.
  unfold create_booking, try_except, bind at 1.
  rewrite lookup_carrier_quote_run. unfold create_booking_ops.
  destruct (svc_create_booking svc env request (user_ident u)
                               (carrier_quote_for request db)) as [msg|sh];
    simpl; [reflexivity|].
  destruct (truthy (req_quote_id request)) as [qid|];
    unfold bind, insert_one_shipment, update_one_quote, log, logged, ret; simpl;
    rewrite <- ?app_assoc; reflexivity.
Qed.

End RoutesFacts.

(** ** Ownership *)

(** C4: when the booking exists and belongs to someone else, each of
    [get_booking], [update_booking], [cancel_booking] and
    [simulate_booking_progress] raises the same HTTP 403 "Access denied",
    a value in which nothing of the shipment occurs, after a single read of
    the database. *)
Theorem non_owner_forbidden {Env Response : Type} (svc : BookingService Env Response)
    (format_status : ShipmentStatus -> string) (env : Env) (db : Db)
    (booking_id : string) (u : User) (update_request : ShipmentUpdate) (s : Shipment) :
  find (has_id booking_id) (shipments db) = Some s ->
  user_id s <> user_ident u ->
  get_booking svc booking_id u db =
    (inl (HTTPException HTTP_403_FORBIDDEN "Access denied"),
     logged (OpFindShipment booking_id) db) /\
  update_booking svc booking_id update_request u db =
    (inl (HTTPException HTTP_403_FORBIDDEN "Access denied"),
     logged (OpFindShipment booking_id) db) /\
  cancel_booking svc format_status env booking_id u db =
    (inl (HTTPException HTTP_403_FORBIDDEN "Access denied"),
     logged (OpFindShipment booking_id) db) /\
  simulate_booking_progress svc env booking_id u db =
    (inl (HTTPException HTTP_403_FORBIDDEN "Access denied"),
     logged (OpFindShipment booking_id) db).
Proof.
  intros Hfind Hneq.
  pose proof (load_owned_denied booking_id u db s Hfind Hneq) as Hden.
  repeat split;
    unfold get_booking, update_booking, cancel_booking, simulate_booking_progress, bind;
    rewrite Hden; reflexivity.
Qed.

Lemma non_owner_forbidden_witness :
  find (has_id "B1") (shipments Demo.db0) = Some Demo.B1 /\
  user_id Demo.B1 <> user_ident Demo.bob /\
  get_booking Demo.engine "B1" Demo.bob Demo.db0 =
    (inl (HTTPException 403 "Access denied"), logged (OpFindShipment "B1") Demo.db0).
Proof.
  split; [reflexivity|]. split; [discriminate|].
  apply (non_owner_forbidden Demo.engine Demo.format_status (0%Z, "S9") Demo.db0
           "B1" Demo.bob Demo.patch_notes Demo.B1); [reflexivity | discriminate].
Defined.

(** ** Cancellation *)

(** C3: on a stored shipment that is delivered, cancelled or returned,
    [cancel_booking] raises; the collections are as they were and the only
    call made on the database is the read.  For the owner the exception is
    the HTTP 400 of the status check. *)
Theorem cancel_terminal_rejected {Env Response : Type} (svc : BookingService Env Response)
    (format_status : ShipmentStatus -> string) (env : Env) (db : Db)
    (booking_id : string) (u : User) (s : Shipment) :
  find (has_id booking_id) (shipments db) = Some s ->
  In (status s) [DELIVERED; CANCELLED; RETURNED] ->
  let out := cancel_booking svc format_status env booking_id u db in
  (exists e, fst out = inl e) /\
  snd out = logged (OpFindShipment booking_id) db /\
  shipments (snd out) = shipments db /\
  filter is_write (trace (snd out)) = filter is_write (trace db) /\
  (user_id s = user_ident u ->
   fst out = inl (HTTPException HTTP_400_BAD_REQUEST
                    ("Cannot cancel shipment with status: " ++ format_status (status s)))).
Proof.
  intros Hfind Hterm out. subst out.
  apply status_in_In in Hterm.
  unfold cancel_booking, bind. rewrite load_owned_run, Hfind.
  destruct (String.eqb_spec (user_id s) (user_ident u)) as [Heq|Hneq].
  - rewrite Hterm. unfold raise, logged. simpl. rewrite filter_app. simpl.
    rewrite app_nil_r. repeat split; eauto.
  - unfold logged. simpl. rewrite filter_app. simpl. rewrite app_nil_r.
    repeat split; eauto. intros Heq. contradiction.
Qed.

Lemma cancel_terminal_rejected_witness :
  find (has_id "B2") (shipments Demo.db0) = Some Demo.B2 /\
  In (status Demo.B2) [DELIVERED; CANCELLED; RETURNED] /\
  fst (cancel_booking Demo.engine Demo.format_status (30%Z, "S9") "B2" Demo.alice Demo.db0) =
    inl (HTTPException 400 "Cannot cancel shipment with status: delivered") /\
  shipments (snd (cancel_booking Demo.engine Demo.format_status (30%Z, "S9") "B2"
                    Demo.alice Demo.db0)) = shipments Demo.db0.
Proof.
  assert (Hf : find (has_id "B2") (shipments Demo.db0) = Some Demo.B2) by reflexivity.
  assert (Ht : In (status Demo.B2) [DELIVERED; CANCELLED; RETURNED])
    by (simpl; left; reflexivity).
  destruct (cancel_terminal_rejected Demo.engine Demo.format_status (30%Z, "S9")
              Demo.db0 "B2" Demo.alice Demo.B2 Hf Ht) as (_ & _ & Hs & _ & H400).
  split; [exact Hf|]. split; [exact Ht|]. split; [apply H400; reflexivity | exact Hs].
Defined.

(** ** Quote consumption *)

Lemma select_quote_none (offers : list CarrierQuote) (name : option string) :
  select_quote offers name = None <->
  forall c, In c offers -> name_matches c name = false.
Proof.
  induction offers as [|cq rest IH]; simpl.
  - split; [intros _ c []|reflexivity].
  - destruct (name_matches cq name) eqn:Hm.
    + split; [discriminate|]. intros H. specialize (H cq (or_introl eq_refl)). congruence.
    + rewrite IH. split.
      * intros H c [<-|Hin]; auto.
      * intros H c Hin. apply H. right. exact Hin.
Qed.

Lemma select_quote_some (offers : list CarrierQuote) (name : option string)
    (cq : CarrierQuote) :
  select_quote offers name = Some cq <->
  exists before after : list CarrierQuote,
    offers = (before ++ cq :: after)%list /\
    name_matches cq name = true /\
    forall c, In c before -> name_matches c name = false.
Proof.
  induction offers as [|x rest IH]; simpl.
  - split; [discriminate|]. intros (before & after & Heq & _).
    destruct before; discriminate.
  - destruct (name_matches x name) eqn:Hm.
    + split.
      * intros [= <-]. exists [], rest. repeat split; [exact Hm | intros c []].
      * intros (before & after & Heq & Hcq & Hbefore).
        destruct before as [|b before]; simpl in Heq; injection Heq as Hx Hr.
        -- congruence.
        -- pose proof (Hbefore b (or_introl eq_refl)). congruence.
    + rewrite IH. split.
      * intros (before & after & -> & Hcq & Hbefore).
        exists (x :: before), after. repeat split; [exact Hcq|].
        intros c [<-|Hin]; auto.
      * intros (before & after & Heq & Hcq & Hbefore).
        destruct before as [|b before]; simpl in Heq; injection Heq as Hx Hr.
        -- congruence.
        -- exists before, after. repeat split; [exact Hr | exact Hcq|].
           intros c Hin. apply Hbefore. right. exact Hin.
Qed.

(** C8: the lookup of [create_booking] goes through the quote's offers in
    order and yields the first one whose [carrier_name] is the requested
    name; it yields nothing ([None], the not-found outcome) exactly when no
    offer carries that name. *)
Theorem select_quote_first_match (q : Quote) (name : string) :
  (forall cq,
     select_quote (get_carrier_quotes q) (Some name) = Some cq <->
     exists before after : list CarrierQuote,
       get_carrier_quotes q = (before ++ cq :: after)%list /\
       carrier_name cq = name /\
       forall c, In c before -> carrier_name c <> name) /\
  (select_quote (get_carrier_quotes q) (Some name) = None <->
   forall c, In c (get_carrier_quotes q) -> carrier_name c <> name).
Proof.
  assert (Hm : forall c, name_matches c (Some name) = true <-> carrier_name c = name)
    by (intros c; simpl; apply String.eqb_eq).
  assert (Hn : forall c, name_matches c (Some name) = false <-> carrier_name c <> name)
    by (intros c; simpl; apply String.eqb_neq).
  split.
  - intros cq. rewrite select_quote_some. split;
      intros (before & after & Heq & Hcq & Hbefore); exists before, after;
      (split; [exact Heq|]); (split; [apply Hm; exact Hcq|]);
      intros c Hin; apply Hn; auto.
  - rewrite select_quote_none. split; intros H c Hin; apply Hn; auto.
Qed.

(** The offer handed to the service is the one [select_quote] yields on the
    first quote document with the requested id. *)
Lemma carrier_quote_for_found (request : ShipmentCreate) (db : Db) (qid : string)
    (q : Quote) :
  truthy (req_quote_id request) = Some qid ->
  find (quote_has_id qid) (quotes db) = Some q ->
  carrier_quote_for request db =
  select_quote (get_carrier_quotes q) (req_carrier_name request).
Proof. intros Hq Hf. unfold carrier_quote_for. rewrite Hq, Hf. reflexivity. Qed.

(** C10: when the request carries a quote id and the shipment has been
    created, the handler's calls on the database are the quote read, the
    shipment insert and then the quote update, whatever the read found.
    Without a quote of that id the update changes nothing; with a quote
    none of whose offers has the requested name, the service was given no
    offer, the booking is stored all the same, and the quote ends up
    [used] with the unmatched name as [selected_carrier]. *)
Theorem quote_marked_after_insert {Env Response : Type} (svc : BookingService Env Response)
    (env : Env) (request : ShipmentCreate) (u : User) (db : Db)
    (qid : string) (sh : Shipment) :
  truthy (req_quote_id request) = Some qid ->
  svc_create_booking svc env request (user_ident u) (carrier_quote_for request db) = inr sh ->
  let out := create_booking svc env request u db in
  fst out = inr (process_shipment_response svc sh) /\
  trace (snd out) =
    (trace db ++ [ OpFindQuote qid;
                   OpInsertShipment sh;
                   OpUpdateQuote qid (mkQuoteMark "used" (req_carrier_name request)
                                                  (created_at sh)) ])%list /\
  shipments (snd out) = (shipments db ++ [sh])%list /\
  (find (quote_has_id qid) (quotes db) = None ->
   carrier_quote_for request db = None /\ quotes (snd out) = quotes db) /\
  (forall q,
     find (quote_has_id qid) (quotes db) = Some q ->
     (forall c, In c (get_carrier_quotes q) ->
                name_matches c (req_carrier_name request) = false) ->
     carrier_quote_for request db = None /\
     find (quote_has_id qid) (quotes (snd out)) =
       Some (mkQuote (quote_id_of q) (carrier_quotes q) "used"
                     (req_carrier_name request) (Some (created_at sh)))).
Proof.
  intros Hq Hsvc out. subst out. rewrite create_booking_run, Hsvc.
  unfold create_booking_ops. rewrite Hq. simpl.
  repeat split.
  - unfold carrier_quote_for. rewrite Hq, H. reflexivity.
  - apply update_first_no_match. exact H.
  - rewrite (carrier_quote_for_found request db qid q Hq H).
    apply select_quote_none. exact H0.
  - rewrite (find_update_first (quote_has_id qid) _ (quotes db) q H).
    + reflexivity.
    + apply find_some in H. apply H.
Qed.

Lemma quote_marked_after_insert_witness :
  truthy (req_quote_id Demo.book_bluedart) = Some "Q1" /\
  carrier_quote_for Demo.book_bluedart Demo.db0 = None /\
  trace (snd (create_booking Demo.engine (10%Z, "S1") Demo.book_bluedart Demo.alice Demo.db0)) =
    [ OpFindQuote "Q1";
      OpInsertShipment (Lifecycle.new_booking 10%Z "S1" Demo.book_bluedart "u-alice" None);
      OpUpdateQuote "Q1" (mkQuoteMark "used" (Some "BlueDart") 10%Z) ] /\
  find (quote_has_id "Q1")
       (quotes (snd (create_booking Demo.engine (10%Z, "S1") Demo.book_bluedart
                       Demo.alice Demo.db0))) =
    Some (mkQuote "Q1" (carrier_quotes Demo.Q1) "used" (Some "BlueDart") (Some 10%Z)).
Proof.
  assert (Hq : truthy (req_quote_id Demo.book_bluedart) = Some "Q1") by reflexivity.
  assert (Hsvc : svc_create_booking Demo.engine (10%Z, "S1") Demo.book_bluedart
                   (user_ident Demo.alice)
                   (carrier_quote_for Demo.book_bluedart Demo.db0) =
                 inr (Lifecycle.new_booking 10%Z "S1" Demo.book_bluedart "u-alice" None))
    by reflexivity.
  destruct (quote_marked_after_insert Demo.engine (10%Z, "S1") Demo.book_bluedart
              Demo.alice Demo.db0 "Q1" _ Hq Hsvc) as (_ & Htrace & _ & _ & Hmark).
  split; [exact Hq|]. split; [reflexivity|]. split; [exact Htrace|].
  apply (Hmark Demo.Q1 eq_refl).
  intros c [<-|[<-|[]]]; reflexivity.
Defined.

(** C2, as the code has it: a booking that names a quote marks the first
    quote document of that id whenever the shipment has been created,
    whatever the quote's status was: [status] becomes [used],
    [selected_carrier] the requested carrier name and [used_at] the new
    shipment's [created_at]; quotes of another id are left as they are.
    When the service raises, the handler answers 500 and neither
    collection has changed. *)
Theorem quote_marked_on_every_booking {Env Response : Type}
    (svc : BookingService Env Response) (env : Env) (request : ShipmentCreate)
    (u : User) (db : Db) (qid : string) (q : Quote) :
  truthy (req_quote_id request) = Some qid ->
  find (quote_has_id qid) (quotes db) = Some q ->
  let out := create_booking svc env request u db in
  match svc_create_booking svc env request (user_ident u)
                           (carrier_quote_for request db) with
  | inr sh =>
      fst out = inr (process_shipment_response svc sh) /\
      shipments (snd out) = (shipments db ++ [sh])%list /\
      find (quote_has_id qid) (quotes (snd out)) =
        Some (mkQuote (quote_id_of q) (carrier_quotes q) "used"
                      (req_carrier_name request) (Some (created_at sh))) /\
      Forall2 (fun a b => b = a \/ quote_id_of a = qid)
              (quotes db) (quotes (snd out))
  | inl msg =>
      fst out = inl (HTTPException HTTP_500_INTERNAL_SERVER_ERROR
                       ("Error creating booking: " ++ msg)) /\
      shipments (snd out) = shipments db /\
      quotes (snd out) = quotes db
  end.
Proof.
  intros Hq Hfind out. subst out. rewrite create_booking_run.
  destruct (svc_create_booking svc env request (user_ident u)
                               (carrier_quote_for request db)) as [msg|sh].
  - rewrite Hq. repeat split.
  - rewrite Hq. simpl. repeat split.
    + rewrite (find_update_first (quote_has_id qid) _ (quotes db) q Hfind).
      * reflexivity.
      * apply find_some in Hfind. apply Hfind.
    + eapply Forall2_impl; [|apply update_first_pointwise].
      intros a b [Hab|[Hp _]]; [left; exact Hab|right].
      apply String.eqb_eq. exact Hp.
Qed.

Lemma quote_marked_on_every_booking_witness :
  truthy (req_quote_id Demo.book_fedex) = Some "Q1" /\
  find (quote_has_id "Q1") (quotes Demo.db1) =
    Some (mkQuote "Q1" (carrier_quotes Demo.Q1) "used" (Some "DHL") (Some 10%Z)) /\
  find (quote_has_id "Q1")
       (quotes (snd (create_booking Demo.engine (20%Z, "S2") Demo.book_fedex
                       Demo.alice Demo.db1))) =
    Some (mkQuote "Q1" (carrier_quotes Demo.Q1) "used" (Some "FedEx") (Some 20%Z)).
Proof.
  assert (Hq : truthy (req_quote_id Demo.book_fedex) = Some "Q1") by reflexivity.
  assert (Hf : find (quote_has_id "Q1") (quotes Demo.db1) =
               Some (mkQuote "Q1" (carrier_quotes Demo.Q1) "used" (Some "DHL") (Some 10%Z)))
    by reflexivity.
  split; [exact Hq|]. split; [exact Hf|].
  exact (proj1 (proj2 (proj2 (quote_marked_on_every_booking Demo.engine (20%Z, "S2")
                                Demo.book_fedex Demo.alice Demo.db1 "Q1" _ Hq Hf)))).
Defined.

(** C2 fails as stated: [Q1] is [used] after a first booking; a second
    booking on [Q1] succeeds and leaves the quote with another
    [selected_carrier] and another [used_at]. *)
Lemma second_booking_overwrites_quote :
  exists (q1 q2 : Quote) (r : Shipment),
    find (quote_has_id "Q1") (quotes Demo.db1) = Some q1 /\
    quote_status q1 = "used" /\
    create_booking Demo.engine (20%Z, "S2") Demo.book_fedex Demo.alice Demo.db1 =
      (inr r, Demo.db2) /\
    find (quote_has_id "Q1") (quotes Demo.db2) = Some q2 /\
    selected_carrier q2 <> selected_carrier q1 /\
    used_at q2 <> used_at q1.
Proof.
  eexists. eexists. eexists.
  split; [vm_compute; reflexivity|].
  split; [reflexivity|].
  split; [vm_compute; reflexivity|].
  split; [vm_compute; reflexivity|].
  split; simpl; discriminate.
Qed.

(** ** Patching a booking *)

Lemma apply_field_keeps (s s' : Shipment) (f : FieldUpdate) :
  apply_field s f = Some s' ->
  id s' = id s /\ user_id s' = user_id s /\ status s' = status s /\
  events s' = events s /\ created_at s' = created_at s.
Proof.
  destruct f; simpl.
  - intros [= <-]. repeat split.
  - destruct (carrier_info s); [|discriminate]. intros [= <-]. repeat split.
  - intros [= <-]. repeat split.
Qed.

Lemma apply_fields_keeps (fs : list FieldUpdate) (s s' : Shipment) :
  apply_fields s fs = Some s' ->
  id s' = id s /\ user_id s' = user_id s /\ status s' = status s /\
  events s' = events s /\ created_at s' = created_at s.
Proof.
  revert s. induction fs as [|f fs IH]; simpl; intros s.
  - intros [= <-]. repeat split.
  - destruct (apply_field s f) as [s1|] eqn:Hf; [|discriminate].
    intros H. apply IH in H. apply apply_field_keeps in Hf.
    destruct H as (? & ? & ? & ? & ?), Hf as (? & ? & ? & ? & ?).
    repeat split; congruence.
Qed.

Lemma apply_fields_snoc (fs : list FieldUpdate) (f : FieldUpdate) (s : Shipment) :
  apply_fields s (fs ++ [f]) =
  match apply_fields s fs with
  | Some s1 => apply_field s1 f
  | None => None
  end.
Proof.
  revert s. induction fs as [|g fs IH]; simpl; intros s.
  - destruct (apply_field s f); reflexivity.
  - destruct (apply_field s g); [apply IH|reflexivity].
Qed.

Lemma find_update_first_const (booking_id : string) (s' : Shipment) (l : list Shipment)
    (s : Shipment) :
  find (has_id booking_id) l = Some s ->
  id s' = id s ->
  find (has_id booking_id) (update_first (has_id booking_id) (fun _ => s') l) = Some s'.
Proof.
  intros Hfind Hid.
  apply (find_update_first (has_id booking_id) (fun _ => s') l s Hfind).
  apply find_some in Hfind. unfold has_id in *. rewrite Hid. apply Hfind.
Qed.

(** What [update_booking] does for the owner of a stored booking. *)
Lemma update_booking_run {Env Response : Type} (svc : BookingService Env Response)
    (booking_id : string) (update_request : ShipmentUpdate) (u : User) (db : Db)
    (s : Shipment) :
  find (has_id booking_id) (shipments db) = Some s ->
  user_id s = user_ident u ->
  update_booking svc booking_id update_request u db =
  match update_data_of update_request with
  | [] => (inr (process_shipment_response svc s), logged (OpFindShipment booking_id) db)
  | _ :: _ =>
      let fs := (update_data_of update_request ++ [SetUpdatedAt (updated_at s)])%list in
      match apply_fields s fs with
      | Some s' =>
          (inr (process_shipment_response svc s'),
           mkDb (update_first (has_id booking_id) (fun _ => s') (shipments db))
                (quotes db)
                (trace db ++ [ OpFindShipment booking_id;
                               OpSetShipmentFields booking_id fs;
                               OpFindShipment booking_id ]))
      | None =>
          (inl (Exception write_error),
           mkDb (shipments db) (quotes db)
                (trace db ++ [ OpFindShipment booking_id;
                               OpSetShipmentFields booking_id fs ]))
      end
  end.
Proof.
  intros Hfind Hown.
  unfold update_booking. unfold bind at 1. rewrite load_owned_run, Hfind, Hown.
  rewrite String.eqb_refl.
  destruct (update_data_of update_request) as [|f rest]; [reflexivity|].
  cbv zeta.
  unfold update_one_shipment_fields, find_one_shipment, bind, log, logged, ret, raise.
  cbn [shipments quotes trace]. rewrite Hfind.
  destruct (apply_fields s ((f :: rest) ++ [SetUpdatedAt (updated_at s)]))
    as [s'|] eqn:Happ.
  - cbn [shipments quotes trace].
    rewrite (find_update_first_const booking_id s' (shipments db) s Hfind).
    + rewrite <- !app_assoc. reflexivity.
    + apply apply_fields_keeps in Happ. apply Happ.
  - rewrite <- !app_assoc. reflexivity.
Qed.

Lemma apply_fields_updated_at (fs : list FieldUpdate) (v : Time) (s s' : Shipment) :
  apply_fields s (fs ++ [SetUpdatedAt v]) = Some s' -> updated_at s' = v.
Proof.
  rewrite apply_fields_snoc. destruct (apply_fields s fs) as [s1|]; [|discriminate].
  simpl. intros [= <-]. reflexivity.
Qed.

(** C6, where the code departs from it: the [updated_at] that
    [update_booking] writes with a patch is the one it has just read, so
    the stored [updated_at] of the owner's booking is after the call what
    it was before, never a later time. *)
Theorem update_booking_keeps_updated_at {Env Response : Type}
    (svc : BookingService Env Response) (booking_id : string)
    (update_request : ShipmentUpdate) (u : User) (db : Db) (s : Shipment) :
  find (has_id booking_id) (shipments db) = Some s ->
  user_id s = user_ident u ->
  forall s',
    find (has_id booking_id)
         (shipments (snd (update_booking svc booking_id update_request u db))) = Some s' ->
    updated_at s' = updated_at s.
Proof.
  intros Hfind Hown s'. rewrite (update_booking_run svc _ _ _ _ s Hfind Hown).
  destruct (update_data_of update_request) as [|f rest].
  - simpl. rewrite Hfind. intros [= <-]. reflexivity.
  - cbv zeta.
    destruct (apply_fields s ((f :: rest) ++ [SetUpdatedAt (updated_at s)]))
      as [s1|] eqn:Happ; cbn [snd shipments].
    + rewrite (find_update_first_const booking_id s1 (shipments db) s Hfind).
      * intros [= <-]. apply (apply_fields_updated_at (f :: rest) _ s s1 Happ).
      * apply apply_fields_keeps in Happ. apply Happ.
    + rewrite Hfind. intros [= <-]. reflexivity.
Qed.

Lemma update_booking_keeps_updated_at_witness :
  find (has_id "B1") (shipments Demo.db0) = Some Demo.B1 /\
  user_id Demo.B1 = user_ident Demo.alice /\
  exists s',
    find (has_id "B1")
         (shipments (snd (update_booking Demo.engine "B1" Demo.patch_notes
                            Demo.alice Demo.db0))) = Some s' /\
    notes s' = Some "call before delivery" /\
    updated_at s' = 100%Z.
Proof.
  split; [reflexivity|]. split; [reflexivity|].
  eexists. split; [vm_compute; reflexivity|]. split; [reflexivity|].
  apply (update_booking_keeps_updated_at Demo.engine "B1" Demo.patch_notes
           Demo.alice Demo.db0 Demo.B1); reflexivity.
Defined.

Lemma apply_fields_patch (s : Shipment) (ci : CarrierInfo) (update_request : ShipmentUpdate) :
  carrier_info s = Some ci ->
  apply_fields s (update_data_of update_request ++ [SetUpdatedAt (updated_at s)]) =
  Some (mkShipment (id s) (user_id s) (status s)
          (Some (mkCarrierInfo
                   match upd_tracking_number update_request with
                   | Some t => Some t
                   | None => tracking_number ci
                   end
                   (carrier ci) (label_url ci)))
          (events s) (created_at s) (updated_at s)
          match upd_notes update_request with
          | Some n => Some n
          | None => notes s
          end).
Proof.
  intros Hci. unfold update_data_of.
  destruct s as [i o st c ev ca ua no]. simpl in Hci. subst c.
  destruct (upd_notes update_request), (upd_tracking_number update_request), ci;
    reflexivity.
Qed.

(** C7, as the code has it: for the owner of a stored booking that has
    carrier information, [update_booking] succeeds and the stored tracking
    number is afterwards the one of the request when the request has one,
    whether or not a tracking number was stored before, and the old one
    when the request has none. *)
Theorem update_booking_sets_tracking_number {Env Response : Type}
    (svc : BookingService Env Response) (booking_id : string)
    (update_request : ShipmentUpdate) (u : User) (db : Db) (s : Shipment)
    (ci : CarrierInfo) :
  find (has_id booking_id) (shipments db) = Some s ->
  user_id s = user_ident u ->
  carrier_info s = Some ci ->
  let out := update_booking svc booking_id update_request u db in
  exists s',
    fst out = inr (process_shipment_response svc s') /\
    find (has_id booking_id) (shipments (snd out)) = Some s' /\
    carrier_info s' =
      Some (mkCarrierInfo
              match upd_tracking_number update_request with
              | Some t => Some t
              | None => tracking_number ci
              end
              (carrier ci) (label_url ci)).
Proof.
  intros Hfind Hown Hci out. subst out.
  rewrite (update_booking_run svc _ _ _ _ s Hfind Hown).
  pose proof (apply_fields_patch s ci update_request Hci) as Happ.
  destruct (update_data_of update_request) as [|f rest] eqn:Hdata.
  - exists s. split; [reflexivity|]. split; [exact Hfind|].
    unfold update_data_of in Hdata.
    destruct (upd_notes update_request), (upd_tracking_number update_request);
      try discriminate.
    rewrite Hci. destruct ci; reflexivity.
  - cbv zeta. rewrite Happ. eexists. split; [reflexivity|]. split; [|reflexivity].
    cbn [snd shipments].
    apply (find_update_first_const booking_id _ (shipments db) s Hfind). reflexivity.
Qed.

Lemma update_booking_sets_tracking_number_witness :
  find (has_id "B1") (shipments Demo.db0) = Some Demo.B1 /\
  user_id Demo.B1 = user_ident Demo.alice /\
  carrier_info Demo.B1 = Some (mkCarrierInfo (Some "AWB1") "DHL" None) /\
  exists s',
    find (has_id "B1")
         (shipments (snd (update_booking Demo.engine "B1" Demo.patch_tracking
                            Demo.alice Demo.db0))) = Some s' /\
    carrier_info s' = Some (mkCarrierInfo (Some "AWB9") "DHL" None).
Proof.
  split; [reflexivity|]. split; [reflexivity|]. split; [reflexivity|].
  destruct (update_booking_sets_tracking_number Demo.engine "B1" Demo.patch_tracking
              Demo.alice Demo.db0 Demo.B1 _ eq_refl eq_refl eq_refl)
    as (s' & _ & Hf & Hci).
  exists s'. split; [exact Hf | exact Hci].
Defined.

(** C7 fails as stated: Alice's booking has the tracking number [AWB1];
    her PUT with [AWB9] succeeds and the stored number is [AWB9]. *)
Lemma tracking_number_replaced :
  exists (ci : CarrierInfo) (r s' : Shipment) (ci' : CarrierInfo),
    find (has_id "B1") (shipments Demo.db0) = Some Demo.B1 /\
    carrier_info Demo.B1 = Some ci /\
    tracking_number ci = Some "AWB1" /\
    fst (update_booking Demo.engine "B1" Demo.patch_tracking Demo.alice Demo.db0) = inr r /\
    find (has_id "B1")
         (shipments (snd (update_booking Demo.engine "B1" Demo.patch_tracking
                            Demo.alice Demo.db0))) = Some s' /\
    carrier_info s' = Some ci' /\
    tracking_number ci' = Some "AWB9" /\
    tracking_number ci' <> tracking_number ci.
Proof.
  do 4 eexists.
  split; [reflexivity|]. split; [reflexivity|]. split; [reflexivity|].
  split; [vm_compute; reflexivity|]. split; [vm_compute; reflexivity|].
  split; [reflexivity|]. split; [reflexivity|]. simpl. discriminate.
Qed.

(** ** The lifecycle engine *)

Lemma is_terminal_In (s : ShipmentStatus) :
  Lifecycle.is_terminal s = true <-> In s [DELIVERED; CANCELLED; RETURNED].
Proof. apply status_in_In. Qed.

Lemma is_terminal_false (s : ShipmentStatus) :
  Lifecycle.is_terminal s = false <-> ~ In s [DELIVERED; CANCELLED; RETURNED].
Proof.
  rewrite <- is_terminal_In. destruct (Lifecycle.is_terminal s); split; congruence.
Qed.

(** Every state that is not terminal has a successor in the forward
    sequence, and that successor is never [pending]. *)
Lemma next_forward_total (s : ShipmentStatus) :
  Lifecycle.is_terminal s = false ->
  exists n, Lifecycle.next_forward s = Some n /\ n <> s.
Proof.
  destruct s; simpl; try discriminate; intros _; eexists; (split; [reflexivity|discriminate]).
Qed.

(** The allowed next-state set, in the words of the transition policy. *)
Lemma allowed_next_policy (cur new : ShipmentStatus) :
  In new (Lifecycle.allowed_next cur) <->
  ~ In cur [DELIVERED; CANCELLED; RETURNED] /\
  (Lifecycle.next_forward cur = Some new \/ new = CANCELLED \/ new = RETURNED).
Proof.
  destruct cur, new; vm_compute; split; intros H;
    repeat match goal with
           | H : _ /\ _ |- _ => destruct H
           | H : _ \/ _ |- _ => destruct H
           | H : False |- _ => destruct H
           | H : ?a = ?b |- _ => discriminate H
           | H : (_ -> False) |- _ => exfalso; apply H; tauto
           end;
    try tauto; try (split; [intros Hc; repeat destruct Hc as [Hc|Hc]; discriminate Hc || exact Hc | tauto]).
Qed.

(** C1: [update_status] answers [InvalidTransition] when the current
    status is delivered, cancelled or returned, and when the requested
    status is neither the immediate successor in the forward sequence nor
    [cancelled] nor [returned]; the record is then exactly what it was, so
    no event is appended and [status] and [updated_at] keep their
    values. *)
Theorem update_status_rejects (now : Time) (shipment : Shipment)
    (new_status : ShipmentStatus) (location description : string) :
  In (status shipment) [DELIVERED; CANCELLED; RETURNED] \/
  ~ (Lifecycle.next_forward (status shipment) = Some new_status \/
     new_status = CANCELLED \/ new_status = RETURNED) ->
  let out := Lifecycle.update_status now shipment new_status location description in
  fst out = inl Lifecycle.InvalidTransition /\
  snd out = shipment /\
  events (snd out) = events shipment /\
  status (snd out) = status shipment /\
  updated_at (snd out) = updated_at shipment.
Proof.
  intros H out.
  assert (Hout : out = (inl Lifecycle.InvalidTransition, shipment)).
  { subst out. unfold Lifecycle.update_status.
    destruct (Lifecycle.is_terminal (status shipment)) eqn:Hterm; [reflexivity|].
    destruct H as [H|H]; [apply is_terminal_In in H; congruence|].
    destruct (status_in new_status (Lifecycle.allowed_next (status shipment))) eqn:Hin;
      [|reflexivity].
    apply status_in_In, allowed_next_policy in Hin. tauto. }
  rewrite Hout. repeat split.
Qed.

Lemma update_status_rejects_witness :
  ~ (Lifecycle.next_forward (status Demo.B1) = Some PENDING \/
     PENDING = CANCELLED \/ PENDING = RETURNED) /\
  Lifecycle.update_status 200%Z Demo.B1 PENDING "Mumbai Hub" "Back to pending" =
    (inl Lifecycle.InvalidTransition, Demo.B1).
Proof.
  assert (H : ~ (Lifecycle.next_forward (status Demo.B1) = Some PENDING \/
                 PENDING = CANCELLED \/ PENDING = RETURNED))
    by (simpl; intros [H|[H|H]]; discriminate H).
  split; [exact H|].
  destruct (update_status_rejects 200%Z Demo.B1 PENDING "Mumbai Hub" "Back to pending"
              (or_intror H)) as (Hfst & Hsnd & _).
  rewrite (surjective_pairing (Lifecycle.update_status _ _ _ _ _)).
  rewrite Hfst, Hsnd. reflexivity.
Defined.

(** An allowed transition goes through: one event is appended, the status
    is the requested one and [updated_at] is the time of the call. *)
Lemma update_status_accepts (now : Time) (shipment : Shipment)
    (new_status : ShipmentStatus) (location description : string) :
  In new_status (Lifecycle.allowed_next (status shipment)) ->
  Lifecycle.update_status now shipment new_status location description =
  (inr (Lifecycle.with_event now new_status location description shipment),
   Lifecycle.with_event now new_status location description shipment).
Proof.
  intros Hin. unfold Lifecycle.update_status.
  pose proof Hin as Hpol. apply allowed_next_policy in Hpol.
  destruct Hpol as [Hterm _]. apply is_terminal_false in Hterm. rewrite Hterm.
  apply status_in_In in Hin. rewrite Hin. reflexivity.
Qed.

(** C5: on a delivered, cancelled or returned shipment [simulate_progress]
    changes nothing, so status and number of events stay and a second call
    changes nothing either; on any other shipment the status becomes the
    immediate successor in the forward sequence and exactly one event, the
    synthetic one, is added at the end of [events]. *)
Theorem simulate_progress_step (synthetic_location synthetic_description : ShipmentStatus -> string)
    (now : Time) (shipment : Shipment) :
  let after := Lifecycle.simulate_progress synthetic_location synthetic_description
                                           now shipment in
  (In (status shipment) [DELIVERED; CANCELLED; RETURNED] ->
   after = shipment /\
   status after = status shipment /\
   length (events after) = length (events shipment) /\
   Lifecycle.simulate_progress synthetic_location synthetic_description now after = after) /\
  (~ In (status shipment) [DELIVERED; CANCELLED; RETURNED] ->
   exists n,
     Lifecycle.next_forward (status shipment) = Some n /\
     status after = n /\
     events after =
       (events shipment ++
        [mkEvent now n (synthetic_location n) (synthetic_description n)])%list /\
     length (events after) = S (length (events shipment))).
Proof.
  intros after. subst after. unfold Lifecycle.simulate_progress. split.
  - intros Hterm. apply is_terminal_In in Hterm. rewrite Hterm. rewrite Hterm.
    repeat split.
  - intros Hterm. apply is_terminal_false in Hterm. rewrite Hterm.
    destruct (next_forward_total (status shipment) Hterm) as (n & Hn & _).
    rewrite Hn. exists n. simpl. rewrite length_app. simpl.
    repeat split. lia.
Qed.

Lemma simulate_progress_step_witness :
  In (status Demo.B2) [DELIVERED; CANCELLED; RETURNED] /\
  Lifecycle.simulate_progress Demo.synthetic_location Demo.synthetic_description
                              200%Z Demo.B2 = Demo.B2 /\
  ~ In (status Demo.B1) [DELIVERED; CANCELLED; RETURNED] /\
  exists n,
    Lifecycle.next_forward (status Demo.B1) = Some n /\
    status (Lifecycle.simulate_progress Demo.synthetic_location Demo.synthetic_description
                                        200%Z Demo.B1) = n.
Proof.
  assert (H2 : In (status Demo.B2) [DELIVERED; CANCELLED; RETURNED])
    by (simpl; left; reflexivity).
  assert (H1 : ~ In (status Demo.B1) [DELIVERED; CANCELLED; RETURNED])
    by (simpl; intros [H|[H|[H|[]]]]; discriminate H).
  split; [exact H2|].
  split; [exact (proj1 (proj1 (simulate_progress_step Demo.synthetic_location
                                 Demo.synthetic_description 200%Z Demo.B2) H2))|].
  split; [exact H1|].
  destruct (proj2 (simulate_progress_step Demo.synthetic_location
                     Demo.synthetic_description 200%Z Demo.B1) H1) as (n & Hn & Hs & _).
  exists n. split; [exact Hn | exact Hs].
Defined.

(** ** Carrier tracking *)

(** C9, as the code has it: for every instance, carrier and tracking number
    [track_shipment] returns a dictionary.  When the carrier's name in
    lower case is none of [dhl], [fedex], [ups], it is the fixed mock data:
    the tracking number given, status "In Transit" and a history of one
    event.  When it is one of the three, the dictionary is empty, whatever
    the configuration says about the carrier. *)
Theorem track_shipment_fallback (self : CarrierService.Self)
    (carrier tracking_number : string) :
  (~ In (CarrierService.lower carrier) ["dhl"; "fedex"; "ups"] ->
   CarrierService.track_shipment self carrier tracking_number =
     CarrierService.mock_tracking tracking_number /\
   CarrierService.get (CarrierService.track_shipment self carrier tracking_number)
                      "tracking_number" = Some (CarrierService.VStr tracking_number) /\
   CarrierService.get (CarrierService.track_shipment self carrier tracking_number)
                      "status" = Some (CarrierService.VStr "In Transit") /\
   exists e,
     CarrierService.get (CarrierService.track_shipment self carrier tracking_number)
                        "events" = Some (CarrierService.VList [e])) /\
  (In (CarrierService.lower carrier) ["dhl"; "fedex"; "ups"] ->
   CarrierService.track_shipment self carrier tracking_number = []).
Proof.
  unfold CarrierService.track_shipment. split.
  - intros Hnot.
    destruct (String.eqb_spec (CarrierService.lower carrier) "dhl") as [E|_];
      [exfalso; apply Hnot; simpl; auto|].
    destruct (String.eqb_spec (CarrierService.lower carrier) "fedex") as [E|_];
      [exfalso; apply Hnot; simpl; auto|].
    destruct (String.eqb_spec (CarrierService.lower carrier) "ups") as [E|_];
      [exfalso; apply Hnot; simpl; auto|].
    split; [reflexivity|]. split; [reflexivity|]. split; [reflexivity|].
    eexists. reflexivity.
  - intros [E|[E|[E|[]]]]; rewrite <- E; reflexivity.
Qed.

Lemma track_shipment_fallback_witness :
  ~ In (CarrierService.lower "BlueDart") ["dhl"; "fedex"; "ups"] /\
  CarrierService.track_shipment CarrierService.init "BlueDart" "XF1" =
    CarrierService.mock_tracking "XF1" /\
  In (CarrierService.lower "FedEx") ["dhl"; "fedex"; "ups"] /\
  CarrierService.track_shipment CarrierService.init "FedEx" "XF1" = [].
Proof.
  assert (Hn : ~ In (CarrierService.lower "BlueDart") ["dhl"; "fedex"; "ups"])
    by (simpl; intros [H|[H|[H|[]]]]; discriminate H).
  assert (Hy : In (CarrierService.lower "FedEx") ["dhl"; "fedex"; "ups"])
    by (simpl; right; left; reflexivity).
  split; [exact Hn|].
  split; [exact (proj1 (proj1 (track_shipment_fallback CarrierService.init
                                 "BlueDart" "XF1") Hn))|].
  split; [exact Hy|].
  exact (proj2 (track_shipment_fallback CarrierService.init "FedEx" "XF1") Hy).
Defined.

(** C9 fails as stated: DHL is disabled in the configuration, and tracking
    with DHL returns the empty dictionary, not the mock data. *)
Lemma disabled_carrier_gets_empty_payload :
  CarrierService.enabled CarrierService.init "DHL" = Some (CarrierService.VBool false) /\
  CarrierService.track_shipment CarrierService.init "DHL" "XF1" = [] /\
  CarrierService.track_shipment CarrierService.init "DHL" "XF1" <>
    CarrierService.mock_tracking "XF1" /\
  CarrierService.get (CarrierService.track_shipment CarrierService.init "DHL" "XF1")
                     "tracking_number" = None.
Proof.
  split; [reflexivity|]. split; [reflexivity|]. split; [|reflexivity].
  vm_compute. discriminate.
Qed.

(** ** The handlers over the lifecycle engine *)

(** For the owner of a stored booking, [simulate_booking_progress] stores
    whatever the service returns and answers with it. *)
Lemma simulate_booking_progress_run {Env Response : Type}
    (svc : BookingService Env Response) (env : Env) (booking_id : string)
    (u : User) (db : Db) (s s' : Shipment) :
  find (has_id booking_id) (shipments db) = Some s ->
  user_id s = user_ident u ->
  simulate_shipment_progress svc env s = inr s' ->
  simulate_booking_progress svc env booking_id u db =
  (inr (process_shipment_response svc s'),
   mkDb (update_first (has_id booking_id) (fun _ => s') (shipments db))
        (quotes db)
        (trace db ++ [OpFindShipment booking_id; OpSetShipment booking_id s'])).
Proof.
  intros Hfind Hown Hsvc.
  unfold simulate_booking_progress. unfold bind at 1.
  rewrite load_owned_run, Hfind, Hown, String.eqb_refl.
  unfold bind at 1. rewrite Hsvc.
  unfold lift_svc, ret, update_one_shipment, bind, log, logged.
  cbn [shipments quotes trace]. rewrite <- app_assoc. reflexivity.
Qed.

(** For the owner of a stored booking that is not terminal,
    [cancel_booking] stores what the service returns for the transition to
    [cancelled] with the fixed location and description. *)
Lemma cancel_booking_run {Env Response : Type}
    (svc : BookingService Env Response) (format_status : ShipmentStatus -> string)
    (env : Env) (booking_id : string) (u : User) (db : Db) (s s' : Shipment) :
  find (has_id booking_id) (shipments db) = Some s ->
  user_id s = user_ident u ->
  ~ In (status s) [DELIVERED; CANCELLED; RETURNED] ->
  update_shipment_status svc env s CANCELLED "XFas Logistics Hub"
                         "Shipment cancelled by customer" = inr s' ->
  cancel_booking svc format_status env booking_id u db =
  (inr [("message", "Booking cancelled successfully")],
   mkDb (update_first (has_id booking_id) (fun _ => s') (shipments db))
        (quotes db)
        (trace db ++ [OpFindShipment booking_id; OpSetShipment booking_id s'])).
Proof.
  intros Hfind Hown Hterm Hsvc.
  unfold cancel_booking. unfold bind at 1.
  rewrite load_owned_run, Hfind, Hown, String.eqb_refl.
  destruct (status_in (status s) [DELIVERED; CANCELLED; RETURNED]) eqn:Hin.
  - apply status_in_In in Hin. contradiction.
  - unfold bind at 1. rewrite Hsvc.
    unfold lift_svc, ret, update_one_shipment, bind, log, logged.
    cbn [shipments quotes trace]. rewrite <- app_assoc. reflexivity.
Qed.

(** Booking the DHL offer of [Q1]: the shipment is [pending] with DHL as
    carrier, and [Q1] is [used]. *)
Example booking_with_quote :
  exists sh q,
    fst (create_booking Demo.engine (10%Z, "S1") Demo.book_dhl Demo.alice Demo.db0) = inr sh /\
    status sh = PENDING /\
    option_map carrier (carrier_info sh) = Some "DHL" /\
    find (quote_has_id "Q1") (quotes Demo.db1) = Some q /\
    quote_status q = "used".
Proof.
  do 2 eexists. split; [vm_compute; reflexivity|].
  split; [reflexivity|]. split; [reflexivity|].
  split; [vm_compute; reflexivity|]. reflexivity.
Qed.

(** Cancelling a shipment in transit: the stored status is [cancelled] and
    one event, "Shipment cancelled by customer", has been added. *)
Example cancel_in_transit :
  exists s',
    find (has_id "B1")
         (shipments (snd (cancel_booking Demo.engine Demo.format_status (200%Z, "S9")
                            "B1" Demo.alice Demo.db0))) = Some s' /\
    status s' = CANCELLED /\
    events s' =
      (events Demo.B1 ++
       [mkEvent 200%Z CANCELLED "XFas Logistics Hub" "Shipment cancelled by customer"])%list.
Proof.
  eexists. split; [vm_compute; reflexivity|]. split; reflexivity.
Qed.

(** Simulating progress on the delivered shipment stores it unchanged. *)
Example simulate_delivered :
  shipments (snd (simulate_booking_progress Demo.engine (200%Z, "S9") "B2"
                    Demo.alice Demo.db0)) = shipments Demo.db0.
Proof. vm_compute. reflexivity. Qed.

(** ** Further facts about the booking handlers *)

(** X1: with no booking of the given id, [get_booking], [update_booking],
    [cancel_booking] and [simulate_booking_progress] all raise HTTP 404
    "Booking not found" after the one read; nothing is written and the
    service is not reached. *)
Theorem unknown_booking_not_found {Env Response : Type}
    (svc : BookingService Env Response) (format_status : ShipmentStatus -> string)
    (env : Env) (db : Db) (booking_id : string) (u : User)
    (update_request : ShipmentUpdate) :
  (forall s, In s (shipments db) -> id s <> booking_id) ->
  get_booking svc booking_id u db =
    (inl (HTTPException HTTP_404_NOT_FOUND "Booking not found"),
     logged (OpFindShipment booking_id) db) /\
  update_booking svc booking_id update_request u db =
    (inl (HTTPException HTTP_404_NOT_FOUND "Booking not found"),
     logged (OpFindShipment booking_id) db) /\
  cancel_booking svc format_status env booking_id u db =
    (inl (HTTPException HTTP_404_NOT_FOUND "Booking not found"),
     logged (OpFindShipment booking_id) db) /\
  simulate_booking_progress svc env booking_id u db =
    (inl (HTTPException HTTP_404_NOT_FOUND "Booking not found"),
     logged (OpFindShipment booking_id) db).
Proof.
  intros Hnone.
  assert (Hfind : find (has_id booking_id) (shipments db) = None).
  { destruct (find (has_id booking_id) (shipments db)) as [s|] eqn:Hf; [|reflexivity].
    apply find_some in Hf. destruct Hf as [Hin Hid].
    apply String.eqb_eq in Hid. exfalso. exact (Hnone s Hin Hid). }
  repeat split;
    unfold get_booking, update_booking, cancel_booking, simulate_booking_progress, bind;
    rewrite load_owned_run, Hfind; reflexivity.
Qed.

Lemma unknown_booking_not_found_witness :
  (forall s, In s (shipments Demo.db0) -> id s <> "B9") /\
  cancel_booking Demo.engine Demo.format_status (30%Z, "S9") "B9" Demo.alice Demo.db0 =
    (inl (HTTPException 404 "Booking not found"), logged (OpFindShipment "B9") Demo.db0).
Proof.
  assert (H : forall s, In s (shipments Demo.db0) -> id s <> "B9")
    by (intros s [<-|[<-|[]]]; discriminate).
  split; [exact H|].
  apply (unknown_booking_not_found Demo.engine Demo.format_status (30%Z, "S9")
           Demo.db0 "B9" Demo.alice Demo.patch_notes H).
Defined.

(** X2: a PUT that carries neither notes nor a tracking number writes
    nothing: the owner gets the booking as it is stored, and the read is
    the only call on the database. *)
Theorem update_booking_empty_patch {Env Response : Type}
    (svc : BookingService Env Response) (booking_id : string)
    (update_request : ShipmentUpdate) (u : User) (db : Db) (s : Shipment) :
  find (has_id booking_id) (shipments db) = Some s ->
  user_id s = user_ident u ->
  upd_notes update_request = None ->
  upd_tracking_number update_request = None ->
  update_booking svc booking_id update_request u db =
    (inr (process_shipment_response svc s), logged (OpFindShipment booking_id) db).
Proof.
  intros Hfind Hown Hn Ht.
  rewrite (update_booking_run svc _ _ _ _ s Hfind Hown).
  unfold update_data_of. rewrite Hn, Ht. reflexivity.
Qed.

Lemma update_booking_empty_patch_witness :
  update_booking Demo.engine "B1" Samples.patch_nothing Demo.alice Demo.db0 =
    (inr Demo.B1, logged (OpFindShipment "B1") Demo.db0).
Proof.
  apply (update_booking_empty_patch Demo.engine "B1" Samples.patch_nothing
           Demo.alice Demo.db0 Demo.B1); reflexivity.
Defined.

Lemma update_first_found_pointwise {A : Type} (p : A -> bool) (f : A -> A)
    (l : list A) (x : A) :
  find p l = Some x ->
  Forall2 (fun a b => b = a \/ (a = x /\ b = f x)) l (update_first p f l).
Proof.
  assert (Hsame : forall l' : list A,
             Forall2 (fun a b => b = a \/ (a = x /\ b = f x)) l' l').
  { induction l' as [|y l' IH]; constructor; auto. }
  induction l as [|y l IH]; simpl; [discriminate|].
  destruct (p y) eqn:Hy; intros Hfind.
  - injection Hfind as ->. constructor; auto.
  - constructor; auto.
Qed.

Lemma Forall2_refl_on {A : Type} (R : A -> A -> Prop) (l : list A) :
  (forall a, R a a) -> Forall2 R l l.
Proof. intros H. induction l; constructor; auto. Qed.

(** X3: whoever calls it and whatever the patch, [update_booking] leaves
    the quotes alone and changes at most the first booking of the given
    id, of which it keeps the id, the owner, the status, the events and
    the creation time: a PUT never moves a booking through its
    lifecycle. *)
Theorem update_booking_keeps_lifecycle {Env Response : Type}
    (svc : BookingService Env Response) (booking_id : string)
    (update_request : ShipmentUpdate) (u : User) (db : Db) :
  let out := update_booking svc booking_id update_request u db in
  quotes (snd out) = quotes db /\
  Forall2 (fun a b =>
             b = a \/
             (find (has_id booking_id) (shipments db) = Some a /\
              user_id a = user_ident u /\
              id b = id a /\ user_id b = user_id a /\ status b = status a /\
              events b = events a /\ created_at b = created_at a))
          (shipments db) (shipments (snd out)).
Proof.
  intros out. subst out.
  destruct (find (has_id booking_id) (shipments db)) as [s|] eqn:Hfind.
  - destruct (String.eqb_spec (user_id s) (user_ident u)) as [Hown|Hneq].
    + rewrite (update_booking_run svc _ _ _ _ s Hfind Hown).
      destruct (update_data_of update_request) as [|f rest].
      * split; [reflexivity|]. apply Forall2_refl_on. auto.
      * cbv zeta.
        destruct (apply_fields s ((f :: rest) ++ [SetUpdatedAt (updated_at s)]))
          as [s'|] eqn:Happ; cbn [snd shipments quotes].
        -- split; [reflexivity|].
           eapply Forall2_impl;
             [|apply (update_first_found_pointwise _ (fun _ => s') _ s Hfind)].
           intros a b [Hab|[Ha Hb]]; [left; exact Hab|right]. subst a b.
           apply apply_fields_keeps in Happ.
           destruct Happ as (? & ? & ? & ? & ?). repeat split; assumption.
        -- split; [reflexivity|]. apply Forall2_refl_on. auto.
    + unfold update_booking, bind.
      rewrite (load_owned_denied booking_id u db s Hfind Hneq).
      split; [reflexivity|]. apply Forall2_refl_on. auto.
  - unfold update_booking, bind. rewrite load_owned_run, Hfind.
    split; [reflexivity|]. apply Forall2_refl_on. auto.
Qed.

(** X4: a booking request without a quote id, or with the empty string as
    quote id, never reaches [db.quotes]: the service is given no offer,
    and when it returns a shipment the insert is the only call on the
    database. *)
Theorem create_booking_without_quote {Env Response : Type}
    (svc : BookingService Env Response) (env : Env) (request : ShipmentCreate)
    (u : User) (db : Db) (sh : Shipment) :
  req_quote_id request = None \/ req_quote_id request = Some "" ->
  svc_create_booking svc env request (user_ident u) None = inr sh ->
  carrier_quote_for request db = None /\
  create_booking svc env request u db =
    (inr (process_shipment_response svc sh),
     mkDb (shipments db ++ [sh]) (quotes db) (trace db ++ [OpInsertShipment sh])).
Proof.
  intros Hq Hsvc.
  assert (Ht : truthy (req_quote_id request) = None)
    by (destruct Hq as [-> | ->]; reflexivity).
  assert (Hcq : carrier_quote_for request db = None)
    by (unfold carrier_quote_for; rewrite Ht; reflexivity).
  split; [exact Hcq|].
  rewrite create_booking_run, Hcq, Hsvc. unfold create_booking_ops.
  rewrite Ht. reflexivity.
Qed.

Lemma create_booking_without_quote_witness :
  req_quote_id Samples.book_plain = Some "" /\
  create_booking Demo.engine (10%Z, "S1") Samples.book_plain Demo.alice Demo.db0 =
    (inr (Lifecycle.new_booking 10%Z "S1" Samples.book_plain "u-alice" None),
     mkDb (shipments Demo.db0 ++
           [Lifecycle.new_booking 10%Z "S1" Samples.book_plain "u-alice" None])
          (quotes Demo.db0)
          [OpInsertShipment
             (Lifecycle.new_booking 10%Z "S1" Samples.book_plain "u-alice" None)]).
Proof.
  split; [reflexivity|].
  apply (create_booking_without_quote Demo.engine (10%Z, "S1") Samples.book_plain
           Demo.alice Demo.db0 _ (or_intror eq_refl) eq_refl).
Defined.


Lemma find_app_fresh {A : Type} (p : A -> bool) (l : list A) (x : A) :
  (forall y, In y l -> p y = false) -> p x = true ->
  find p (l ++ [x]) = Some x.
Proof.
  intros Hl Hx. induction l as [|y l IH]; simpl.
  - rewrite Hx. reflexivity.
  - rewrite (Hl y (or_introl eq_refl)). apply IH.
    intros z Hz. apply Hl. right. exact Hz.
Qed.

(** X6: a booking that has just been created can be fetched under its id
    by the user it was created for, and by nobody else, as long as the
    service gave it that user as owner and an id no stored booking has. *)
Theorem created_booking_is_fetched {Env Response : Type}
    (svc : BookingService Env Response) (env : Env) (request : ShipmentCreate)
    (u other : User) (db : Db) (sh : Shipment) :
  svc_create_booking svc env request (user_ident u)
                     (carrier_quote_for request db) = inr sh ->
  user_id sh = user_ident u ->
  (forall s, In s (shipments db) -> id s <> id sh) ->
  user_ident other <> user_ident u ->
  let db' := snd (create_booking svc env request u db) in
  (exists s',
     fst (get_booking svc (id sh) u db') = inr (process_shipment_response svc s') /\
     id s' = id sh /\ user_id s' = user_ident u /\ status s' = status sh /\
     carrier_info s' = carrier_info sh) /\
  fst (get_booking svc (id sh) other db') =
    inl (HTTPException HTTP_403_FORBIDDEN "Access denied").
Proof.
  intros Hsvc Hown Hfresh Hother db'. subst db'.
  rewrite create_booking_run, Hsvc. cbn [snd].
  assert (Hfind : forall qs tr,
             find (has_id (id sh)) (shipments (mkDb (shipments db ++ [sh]) qs tr)) = Some sh).
  { intros qs tr. cbn [shipments]. apply find_app_fresh.
    - intros y Hy. apply String.eqb_neq. apply Hfresh. exact Hy.
    - apply String.eqb_refl. }
  split.
  - exists sh. unfold get_booking, bind.
    rewrite load_owned_run, Hfind, Hown, String.eqb_refl. repeat split; auto.
  - unfold get_booking, bind. rewrite load_owned_run, Hfind, Hown.
    destruct (String.eqb_spec (user_ident u) (user_ident other)) as [E|_];
      [exfalso; apply Hother; symmetry; exact E | reflexivity].
Qed.

Lemma created_booking_is_fetched_witness :
  (exists s',
     fst (get_booking Demo.engine "S1" Demo.alice Demo.db1) = inr s' /\
     id s' = "S1" /\ user_id s' = "u-alice" /\ status s' = PENDING /\
     carrier_info s' = Some (mkCarrierInfo None "DHL" None)) /\
  fst (get_booking Demo.engine "S1" Demo.bob Demo.db1) =
    inl (HTTPException 403 "Access denied").
Proof.
  apply (created_booking_is_fetched Demo.engine (10%Z, "S1") Demo.book_dhl
           Demo.alice Demo.bob Demo.db0
           (Lifecycle.new_booking 10%Z "S1" Demo.book_dhl "u-alice" (Some Demo.dhl_offer))).
  - reflexivity.
  - reflexivity.
  - intros s [<-|[<-|[]]]; discriminate.
  - discriminate.
Defined.

Lemma has_tracking_number_spec (awb : string) (s : Shipment) :
  has_tracking_number awb s = true <->
  exists ci, carrier_info s = Some ci /\ tracking_number ci = Some awb.
Proof.
  unfold has_tracking_number. split.
  - destruct (carrier_info s) as [ci|]; [|discriminate].
    destruct (tracking_number ci) as [t|] eqn:Ht; [|discriminate].
    intros H. apply String.eqb_eq in H. subst t. exists ci. auto.
  - intros (ci & -> & ->). apply String.eqb_refl.
Qed.

(** X7: the public lookup answers HTTP 404 "Tracking number not found"
    exactly when no stored shipment carries the number; otherwise it
    answers, to any caller, with a stored shipment that carries it, the
    first one in the collection.  It never changes the database. *)
Theorem track_shipment_by_awb {Env Response : Type}
    (svc : BookingService Env Response) (awb : string) (db : Db) :
  let out := track_shipment svc awb db in
  snd out = db /\
  ((forall s ci, In s (shipments db) -> carrier_info s = Some ci ->
                 tracking_number ci <> Some awb) <->
   fst out = inl (HTTPException HTTP_404_NOT_FOUND "Tracking number not found")) /\
  ((exists s ci, In s (shipments db) /\ carrier_info s = Some ci /\
                 tracking_number ci = Some awb) <->
   exists s ci before after,
     fst out = inr (process_shipment_response svc s) /\
     shipments db = (before ++ s :: after)%list /\
     carrier_info s = Some ci /\ tracking_number ci = Some awb /\
     forall x, In x before -> has_tracking_number awb x = false).
Proof.
  intros out. subst out.
  unfold track_shipment, find_one_by_tracking_number, bind, raise, ret.
  destruct (find (has_tracking_number awb) (shipments db)) as [s|] eqn:Hfind; cbn [fst snd].
  - split; [reflexivity|].
    pose proof (find_some _ _ Hfind) as [Hin Hs].
    apply has_tracking_number_spec in Hs. destruct Hs as (ci & Hci & Ht).
    split.
    + split; [|discriminate]. intros Hnone. exfalso. exact (Hnone s ci Hin Hci Ht).
    + split; [|intros _; exists s, ci; auto].
      intros _.
      assert (Hsplit : exists before after,
                 shipments db = (before ++ s :: after)%list /\
                 forall x, In x before -> has_tracking_number awb x = false).
      { clear Hin. revert Hfind. generalize (shipments db) as l.
        induction l as [|y l IH]; simpl; [discriminate|].
        destruct (has_tracking_number awb y) eqn:Hy.
        - intros [= ->]. exists [], l. split; [reflexivity|intros x []].
        - intros Hf. destruct (IH Hf) as (before & after & -> & Hb).
          exists (y :: before), after. split; [reflexivity|].
          intros x [<-|Hx]; auto. }
      destruct Hsplit as (before & after & Heq & Hb).
      exists s, ci, before, after. auto.
  - split; [reflexivity|]. split.
    + split; [reflexivity|]. intros _ s ci Hin Hci Ht.
      pose proof (find_none _ _ Hfind s Hin) as Hn.
      assert (Hy : has_tracking_number awb s = true)
        by (apply has_tracking_number_spec; exists ci; auto).
      congruence.
    + split.
      * intros (s & ci & Hin & Hci & Ht).
        pose proof (find_none _ _ Hfind s Hin) as Hn.
        assert (Hy : has_tracking_number awb s = true)
          by (apply has_tracking_number_spec; exists ci; auto).
        congruence.
      * intros (s & ci & before & after & Hfst & _). discriminate Hfst.
Qed.

Lemma find_update_first_other {A : Type} (p q : A -> bool) (x x' : A) (l : list A) :
  find p l = Some x -> q x' = true ->
  (forall y, In y l -> q y = true -> y = x) ->
  find q (update_first p (fun _ => x') l) = Some x'.
Proof.
  induction l as [|y l IH]; simpl; [discriminate|].
  destruct (p y) eqn:Hy; intros Hfind Hq Hall.
  - simpl. rewrite Hq. reflexivity.
  - simpl. destruct (q y) eqn:Hqy.
    + pose proof (Hall y (or_introl eq_refl) Hqy) as ->.
      apply find_some in Hfind. destruct Hfind as [_ Hpx]. congruence.
    + apply IH; auto.
Qed.

(** X8: after the owner has put a tracking number on a booking that has
    carrier information, the public lookup by that number answers with
    this booking, provided no other stored shipment carries the number.
    What it answers with has the number, and the id, owner, status and
    events the booking had. *)
Theorem tracking_number_set_then_tracked {Env Response : Type}
    (svc : BookingService Env Response) (booking_id : string)
    (update_request : ShipmentUpdate) (u : User) (db : Db) (s : Shipment)
    (ci : CarrierInfo) (awb : string) :
  find (has_id booking_id) (shipments db) = Some s ->
  user_id s = user_ident u ->
  carrier_info s = Some ci ->
  upd_tracking_number update_request = Some awb ->
  (forall x, In x (shipments db) -> has_tracking_number awb x = true -> x = s) ->
  let db' := snd (update_booking svc booking_id update_request u db) in
  exists s',
    fst (track_shipment svc awb db') = inr (process_shipment_response svc s') /\
    carrier_info s' = Some (mkCarrierInfo (Some awb) (carrier ci) (label_url ci)) /\
    id s' = id s /\ user_id s' = user_id s /\ status s' = status s /\
    events s' = events s.
Proof.
  intros Hfind Hown Hci Hawb Honly db'. subst db'.
  rewrite (update_booking_run svc _ _ _ _ s Hfind Hown).
  pose proof (apply_fields_patch s ci update_request Hci) as Happ.
  rewrite Hawb in Happ.
  assert (Hex : exists s',
             apply_fields s (update_data_of update_request ++
                             [SetUpdatedAt (updated_at s)]) = Some s' /\
             carrier_info s' = Some (mkCarrierInfo (Some awb) (carrier ci) (label_url ci)) /\
             id s' = id s /\ user_id s' = user_id s /\ status s' = status s /\
             events s' = events s).
  { eexists. split; [exact Happ|]. repeat split. }
  clear Happ. destruct Hex as (s' & Happ & Hci' & Hrest).
  destruct (update_data_of update_request) as [|f rest] eqn:Hdata.
  - unfold update_data_of in Hdata. rewrite Hawb in Hdata.
    destruct (upd_notes update_request); discriminate Hdata.
  - cbv zeta. rewrite Happ. cbn [snd]. exists s'. split; [|split; assumption].
    unfold track_shipment, find_one_by_tracking_number, bind, ret. cbn [shipments].
    rewrite (find_update_first_other (has_id booking_id) (has_tracking_number awb)
               s s' (shipments db) Hfind).
    + reflexivity.
    + apply has_tracking_number_spec. eexists. split; [exact Hci'|reflexivity].
    + exact Honly.
Qed.

Lemma tracking_number_set_then_tracked_witness :
  exists s',
    fst (track_shipment Demo.engine "AWB9"
           (snd (update_booking Demo.engine "B1" Demo.patch_tracking Demo.alice Demo.db0))) =
      inr s' /\
    carrier_info s' = Some (mkCarrierInfo (Some "AWB9") "DHL" None) /\
    id s' = "B1".
Proof.
  destruct (tracking_number_set_then_tracked Demo.engine "B1" Demo.patch_tracking
              Demo.alice Demo.db0 Demo.B1 (mkCarrierInfo (Some "AWB1") "DHL" None) "AWB9"
              eq_refl eq_refl eq_refl eq_refl)
    as (s' & Hr & Hci & Hid & _).
  - intros x [<-|[<-|[]]]; vm_compute; discriminate.
  - exists s'. split; [exact Hr|]. split; [exact Hci | exact Hid].
Defined.

(** X9: when the service raises, [cancel_booking] and
    [simulate_booking_progress] let the exception through as it is (no
    HTTP error of their own) and write nothing: the booking stays as it was
    stored. *)
Theorem service_failure_writes_nothing {Env Response : Type}
    (svc : BookingService Env Response) (format_status : ShipmentStatus -> string)
    (env : Env) (booking_id : string) (u : User) (db : Db) (s : Shipment) :
  find (has_id booking_id) (shipments db) = Some s ->
  user_id s = user_ident u ->
  (forall msg,
     ~ In (status s) [DELIVERED; CANCELLED; RETURNED] ->
     update_shipment_status svc env s CANCELLED "XFas Logistics Hub"
                            "Shipment cancelled by customer" = inl msg ->
     cancel_booking svc format_status env booking_id u db =
       (inl (Exception msg), logged (OpFindShipment booking_id) db)) /\
  (forall msg,
     simulate_shipment_progress svc env s = inl msg ->
     simulate_booking_progress svc env booking_id u db =
       (inl (Exception msg), logged (OpFindShipment booking_id) db)).
Proof.
  intros Hfind Hown. split; intros msg.
  - intros Hterm Hsvc. unfold cancel_booking. unfold bind at 1.
    rewrite load_owned_run, Hfind, Hown, String.eqb_refl.
    destruct (status_in (status s) [DELIVERED; CANCELLED; RETURNED]) eqn:Hin.
    + apply status_in_In in Hin. contradiction.
    + unfold bind at 1. rewrite Hsvc. reflexivity.
  - intros Hsvc. unfold simulate_booking_progress. unfold bind at 1.
    rewrite load_owned_run, Hfind, Hown, String.eqb_refl.
    unfold bind at 1. rewrite Hsvc. reflexivity.
Qed.

Lemma service_failure_writes_nothing_witness :
  cancel_booking Samples.failing Demo.format_status (30%Z, "S9") "B1" Demo.alice Demo.db0 =
    (inl (Exception "service down"), logged (OpFindShipment "B1") Demo.db0) /\
  simulate_booking_progress Samples.failing (30%Z, "S9") "B1" Demo.alice Demo.db0 =
    (inl (Exception "service down"), logged (OpFindShipment "B1") Demo.db0).
Proof.
  destruct (service_failure_writes_nothing Samples.failing Demo.format_status
              (30%Z, "S9") "B1" Demo.alice Demo.db0 Demo.B1 eq_refl eq_refl)
    as [Hc Hs].
  split.
  - apply Hc; [|reflexivity]. simpl. intros [H|[H|[H|[]]]]; discriminate H.
  - apply Hs. reflexivity.
Defined.

(** X10: a booking cannot be cancelled twice.  When the owner's
    cancellation went through and the service returned the booking, under
    the same id and owner, in status [cancelled], a further
    [cancel_booking] raises HTTP 400 and leaves the stored shipments as
    the first cancellation left them. *)
Theorem cancel_twice_rejected {Env Response : Type}
    (svc : BookingService Env Response) (format_status : ShipmentStatus -> string)
    (env env' : Env) (booking_id : string) (u : User) (db : Db) (s s' : Shipment) :
  find (has_id booking_id) (shipments db) = Some s ->
  user_id s = user_ident u ->
  ~ In (status s) [DELIVERED; CANCELLED; RETURNED] ->
  update_shipment_status svc env s CANCELLED "XFas Logistics Hub"
                         "Shipment cancelled by customer" = inr s' ->
  id s' = id s -> user_id s' = user_id s -> status s' = CANCELLED ->
  let first := cancel_booking svc format_status env booking_id u db in
  let second := cancel_booking svc format_status env' booking_id u (snd first) in
  fst first = inr [("message", "Booking cancelled successfully")] /\
  fst second = inl (HTTPException HTTP_400_BAD_REQUEST
                      ("Cannot cancel shipment with status: " ++ format_status CANCELLED)) /\
  shipments (snd second) = shipments (snd first).
Proof.
  intros Hfind Hown Hterm Hsvc Hid Huid Hst first second.
  assert (Hfirst : first =
            (inr [("message", "Booking cancelled successfully")],
             mkDb (update_first (has_id booking_id) (fun _ => s') (shipments db))
                  (quotes db)
                  (trace db ++ [OpFindShipment booking_id; OpSetShipment booking_id s']))).
  { subst first. unfold cancel_booking. unfold bind at 1.
    rewrite load_owned_run, Hfind, Hown, String.eqb_refl.
    destruct (status_in (status s) [DELIVERED; CANCELLED; RETURNED]) eqn:Hin.
    - apply status_in_In in Hin. contradiction.
    - unfold bind at 1. rewrite Hsvc.
      unfold lift_svc, ret, update_one_shipment, bind, log, logged.
      cbn [shipments quotes trace]. rewrite <- app_assoc. reflexivity. }
  subst second. rewrite Hfirst. cbn [fst snd]. split; [reflexivity|].
  unfold cancel_booking, bind. rewrite load_owned_run. cbn [shipments].
  rewrite (find_update_first_const booking_id s' (shipments db) s Hfind Hid).
  rewrite Huid, Hown, String.eqb_refl, Hst. split; reflexivity.
Qed.

Lemma cancel_twice_rejected_witness :
  fst (cancel_booking Demo.engine Demo.format_status (300%Z, "S9") "B1" Demo.alice
         (snd (cancel_booking Demo.engine Demo.format_status (200%Z, "S9") "B1"
                 Demo.alice Demo.db0))) =
    inl (HTTPException 400 "Cannot cancel shipment with status: cancelled").
Proof.
  refine (proj1 (proj2 (cancel_twice_rejected Demo.engine Demo.format_status
                          (200%Z, "S9") (300%Z, "S9") "B1" Demo.alice Demo.db0 Demo.B1
                          (Lifecycle.with_event 200%Z CANCELLED "XFas Logistics Hub"
                             "Shipment cancelled by customer" Demo.B1)
                          eq_refl eq_refl _ eq_refl eq_refl eq_refl eq_refl))).
  simpl. intros [H|[H|[H|[]]]]; discriminate H.
Defined.

(** X11: the listing shows a user nothing but bookings of their own that
    are stored, and with a status filter only bookings in that status, as
    long as the store returns documents among those that match the query;
    the listing changes nothing in the database, also when the store
    raises. *)
Theorem get_user_bookings_own_only {Env Response : Type}
    (svc : BookingService Env Response)
    (cursor : list Shipment -> Z -> Z -> string + list Shipment)
    (u : User) (limit skip : Z) (status_filter : option ShipmentStatus) (db : Db) :
  (forall docs r, cursor docs limit skip = inr r -> incl r docs) ->
  let out := get_user_bookings svc cursor u limit skip status_filter db in
  snd out = db /\
  forall responses,
    fst out = inr responses ->
    exists shown,
      responses = map (process_shipment_response svc) shown /\
      forall s, In s shown ->
        In s (shipments db) /\
        user_id s = user_ident u /\
        forall st, status_filter = Some st -> status s = st.
Proof.
  intros Hcursor out. subst out.
  unfold get_user_bookings, find_shipments, bind, ret.
  destruct (cursor (filter (matches_query (user_ident u) status_filter) (shipments db))
                   limit skip) as [msg|shown] eqn:Hc; cbn [fst snd].
  - split; [reflexivity|]. intros responses H. discriminate H.
  - split; [reflexivity|]. intros responses [= <-]. exists shown.
    split; [reflexivity|]. intros s Hin.
    apply (Hcursor _ _ Hc) in Hin. apply filter_In in Hin. destruct Hin as [Hin Hq].
    unfold matches_query in Hq. apply andb_true_iff in Hq. destruct Hq as [Hu Hs].
    apply String.eqb_eq in Hu. repeat split; [exact Hin | exact Hu|].
    intros st ->. destruct (status s), st; simpl in Hs; congruence.
Qed.

Lemma In_firstn {A : Type} (n : nat) (l : list A) (x : A) :
  In x (firstn n l) -> In x l.
Proof.
  intros H. rewrite <- (firstn_skipn n l). apply in_or_app. left. exact H.
Qed.

Lemma In_skipn {A : Type} (n : nat) (l : list A) (x : A) :
  In x (skipn n l) -> In x l.
Proof.
  intros H. rewrite <- (firstn_skipn n l). apply in_or_app. right. exact H.
Qed.

Lemma samples_cursor_incl (docs : list Shipment) (limit skip : Z) (r : list Shipment) :
  Samples.cursor docs limit skip = inr r -> incl r docs.
Proof.
  unfold Samples.cursor.
  destruct (skip <? 0)%Z; [discriminate|]. destruct (limit <? 0)%Z; [discriminate|].
  intros [= <-]. intros x Hx.
  apply In_firstn in Hx. apply In_skipn in Hx.
  revert Hx. induction docs as [|d docs IH]; simpl; [intros []|].
  assert (Hins : forall l, In x (Samples.insert_desc d l) -> x = d \/ In x l).
  { induction l as [|y l IHl]; simpl.
    - intros [<-|[]]. left. reflexivity.
    - destruct (created_at y <? created_at d)%Z; simpl.
      + intros [<-|[<-|H]]; auto.
      + intros [<-|H]; auto. destruct (IHl H); auto. }
  intros H. destruct (Hins _ H) as [->|H']; auto.
Qed.

Lemma get_user_bookings_own_only_witness :
  snd (get_user_bookings Demo.engine Samples.cursor Demo.alice 20 0 None Samples.db3) =
    Samples.db3 /\
  fst (get_user_bookings Demo.engine Samples.cursor Demo.alice 20 0 None Samples.db3) =
    inr [Demo.B1; Demo.B2].
Proof.
  split.
  - exact (proj1 (get_user_bookings_own_only Demo.engine Samples.cursor Demo.alice
                    20 0 None Samples.db3
                    (fun docs r => samples_cursor_incl docs 20 0 r))).
  - vm_compute. reflexivity.
Defined.

(** ** Further facts about the carrier service *)

(** X12: none of the three quote functions ever yields an offer.  With
    the carrier and its [enabled] key in the configuration the result is
    [None], whatever the flag says; without them the lookup raises
    [KeyError]. *)
Theorem no_carrier_offer (QuoteRequest : Type) (self : CarrierService.Self)
    (request : QuoteRequest) :
  ((forall flag, CarrierService.enabled self "DHL" = Some flag ->
                 CarrierQuotes.get_dhl_quote QuoteRequest self request = inr None) /\
   (CarrierService.enabled self "DHL" = None ->
    exists k, CarrierQuotes.get_dhl_quote QuoteRequest self request =
              inl (CarrierQuotes.mkKeyError k))) /\
  ((forall flag, CarrierService.enabled self "FedEx" = Some flag ->
                 CarrierQuotes.get_fedex_quote QuoteRequest self request = inr None) /\
   (CarrierService.enabled self "FedEx" = None ->
    exists k, CarrierQuotes.get_fedex_quote QuoteRequest self request =
              inl (CarrierQuotes.mkKeyError k))) /\
  ((forall flag, CarrierService.enabled self "UPS" = Some flag ->
                 CarrierQuotes.get_ups_quote QuoteRequest self request = inr None) /\
   (CarrierService.enabled self "UPS" = None ->
    exists k, CarrierQuotes.get_ups_quote QuoteRequest self request =
              inl (CarrierQuotes.mkKeyError k))).
Proof.
  unfold CarrierQuotes.get_dhl_quote, CarrierQuotes.get_fedex_quote,
    CarrierQuotes.get_ups_quote, CarrierQuotes.getitem, CarrierService.enabled.
  repeat split.
  all: match goal with
       | |- context [CarrierService.get (CarrierService.carrier_configs ?x) ?n] =>
           destruct (CarrierService.get (CarrierService.carrier_configs x) n) as [cfg|]
       end.
  all: try (intros flag H; try discriminate H; rewrite H;
            destruct (negb (CarrierQuotes.truth flag)); reflexivity).
  all: try (intros H; rewrite H; eexists; reflexivity).
  all: intros _; eexists; reflexivity.
Qed.

Lemma no_carrier_offer_witness :
  CarrierService.enabled (CarrierQuotes.enable "DHL" CarrierService.init) "DHL" =
    Some (CarrierService.VBool true) /\
  CarrierQuotes.get_dhl_quote unit (CarrierQuotes.enable "DHL" CarrierService.init) tt =
    inr None /\
  CarrierService.enabled (CarrierService.mkSelf []) "UPS" = None /\
  exists k, CarrierQuotes.get_ups_quote unit (CarrierService.mkSelf []) tt =
            inl (CarrierQuotes.mkKeyError k).
Proof.
  split; [reflexivity|].
  split; [exact (proj1 (proj1 (no_carrier_offer unit
                                 (CarrierQuotes.enable "DHL" CarrierService.init) tt))
                   _ eq_refl)|].
  split; [reflexivity|].
  exact (proj2 (proj2 (proj2 (no_carrier_offer unit (CarrierService.mkSelf []) tt)))
           eq_refl).
Defined.

Lemma lower_ascii_idempotent (c : ascii) :
  CarrierService.lower_ascii (CarrierService.lower_ascii c) = CarrierService.lower_ascii c.
Proof. destruct c as [[] [] [] [] [] [] [] []]; reflexivity. Qed.

Lemma lower_idempotent (s : string) :
  CarrierService.lower (CarrierService.lower s) = CarrierService.lower s.
Proof.
  induction s as [|c s IH]; simpl; [reflexivity|].
  rewrite lower_ascii_idempotent, IH. reflexivity.
Qed.

Lemma lower_app (a b : string) :
  CarrierService.lower (a ++ b) = CarrierService.lower a ++ CarrierService.lower b.
Proof. induction a as [|c a IH]; simpl; [reflexivity|]. rewrite IH. reflexivity. Qed.

(** X13: carrier tracking looks at the carrier's name in lower case and at
    nothing else of the service: two instances, and two spellings of a
    name that differ in the case of ASCII letters only, get the same
    answer; in particular the name may be given in lower case. *)
Theorem track_shipment_ignores_case (self self' : CarrierService.Self)
    (carrier carrier' tracking_number : string) :
  (CarrierService.lower carrier = CarrierService.lower carrier' ->
   CarrierService.track_shipment self carrier tracking_number =
   CarrierService.track_shipment self' carrier' tracking_number) /\
  CarrierService.track_shipment self (CarrierService.lower carrier) tracking_number =
  CarrierService.track_shipment self' carrier tracking_number.
Proof.
  assert (H : forall c c', CarrierService.lower c = CarrierService.lower c' ->
            CarrierService.track_shipment self c tracking_number =
            CarrierService.track_shipment self' c' tracking_number).
  { intros c c' E. unfold CarrierService.track_shipment. rewrite E. reflexivity. }
  split; [apply H|]. apply H. apply lower_idempotent.
Qed.

Lemma track_shipment_ignores_case_witness :
  CarrierService.lower "FedEx" = CarrierService.lower "FEDEX" /\
  CarrierService.track_shipment CarrierService.init "FedEx" "XF1" =
  CarrierService.track_shipment (CarrierQuotes.enable "FedEx" CarrierService.init)
                                "FEDEX" "XF1".
Proof.
  split; [reflexivity|].
  apply (proj1 (track_shipment_ignores_case CarrierService.init
                  (CarrierQuotes.enable "FedEx" CarrierService.init)
                  "FedEx" "FEDEX" "XF1")).
  reflexivity.
Defined.

(** ** [server.py] *)

Lemma prefix_app (sub a b : string) :
  String.prefix sub a = true -> String.prefix sub (a ++ b) = true.
Proof.
  revert a. induction sub as [|c sub IH]; intros a H.
  - destruct (a ++ b); reflexivity.
  - destruct a as [|d a]; simpl in *; [discriminate|].
    destruct (Ascii.ascii_dec c d); [apply IH; exact H|discriminate].
Qed.

Lemma prefix_refl (a : string) : String.prefix a a = true.
Proof.
  induction a as [|c a IH]; simpl; [reflexivity|].
  destruct (Ascii.ascii_dec c c); [exact IH|congruence].
Qed.

Lemma contains_cons (sub : string) (d : ascii) (a : string) :
  Server.contains sub (String d a) =
  if String.prefix sub (String d a) then true else Server.contains sub a.
Proof. reflexivity. Qed.

Lemma contains_app_l (sub a b : string) :
  Server.contains sub a = true -> Server.contains sub (a ++ b) = true.
Proof.
  induction a as [|d a IH].
  - destruct sub; simpl; [|discriminate]. intros _. destruct b; reflexivity.
  - intros H. change (String d a ++ b) with (String d (a ++ b)).
    rewrite contains_cons in *.
    destruct (String.prefix sub (String d a)) eqn:Hp.
    + pose proof (prefix_app _ _ b Hp) as Hp'.
      change (String d a ++ b) with (String d (a ++ b)) in Hp'.
      rewrite Hp'. reflexivity.
    + destruct (String.prefix sub (String d (a ++ b))); [reflexivity|].
      apply IH. exact H.
Qed.

Lemma contains_app_r (sub a b : string) :
  Server.contains sub b = true -> Server.contains sub (a ++ b) = true.
Proof.
  intros H. induction a as [|d a IH]; [exact H|].
  change (String d a ++ b) with (String d (a ++ b)). rewrite contains_cons.
  destruct (String.prefix sub (String d (a ++ b))); [reflexivity|exact IH].
Qed.

Lemma prefix_self_app (a b : string) : String.prefix a (a ++ b) = true.
Proof.
  induction a as [|c a IH]; simpl; [destruct b; reflexivity|].
  destruct (Ascii.ascii_dec c c); [exact IH|congruence].
Qed.

(** X14: the connection string starts with the value of [MONGO_URL].  A
    value without "mongodb+srv://" is used as it is.  A value with it gets
    the SSL parameters at its end, after a "?" when it has none and after
    a "&" when it has one, so that the result always has a query part and
    still names an Atlas cluster. *)
Theorem mongo_url_of_query (mongo_url : string) :
  String.prefix mongo_url (Server.mongo_url_of mongo_url) = true /\
  (Server.contains "mongodb+srv://" mongo_url = false ->
   Server.mongo_url_of mongo_url = mongo_url) /\
  (Server.contains "mongodb+srv://" mongo_url = true ->
   Server.contains "?" (Server.mongo_url_of mongo_url) = true /\
   Server.contains "mongodb+srv://" (Server.mongo_url_of mongo_url) = true /\
   exists separator,
     Server.mongo_url_of mongo_url = mongo_url ++ separator ++ Server.ssl_parameters /\
     (Server.contains "?" mongo_url = true -> separator = "&") /\
     (Server.contains "?" mongo_url = false -> separator = "?")).
Proof.
  unfold Server.mongo_url_of.
  destruct (Server.contains "mongodb+srv://" mongo_url) eqn:Hsrv.
  - split; [apply prefix_self_app|]. split; [discriminate|]. intros _.
    split; [|split].
    + destruct (Server.contains "?" mongo_url) eqn:Hq.
      * apply contains_app_l. exact Hq.
      * apply contains_app_r. reflexivity.
    + apply contains_app_l. exact Hsrv.
    + eexists. split; [reflexivity|].
      destruct (Server.contains "?" mongo_url); split; congruence.
  - split; [apply prefix_refl|]. split; [reflexivity|discriminate].
Qed.

Lemma mongo_url_of_query_witness :
  Server.contains "mongodb+srv://" "mongodb+srv://u@c0.example.net/xfas" = true /\
  Server.mongo_url_of "mongodb+srv://u@c0.example.net/xfas" =
    "mongodb+srv://u@c0.example.net/xfas?ssl=true&ssl_cert_reqs=CERT_NONE&tlsAllowInvalidCertificates=true" /\
  Server.contains "mongodb+srv://" "mongodb://localhost:27017" = false /\
  Server.mongo_url_of "mongodb://localhost:27017" = "mongodb://localhost:27017".
Proof.
  split; [reflexivity|]. split; [reflexivity|]. split; [reflexivity|].
  exact (proj1 (proj2 (mongo_url_of_query "mongodb://localhost:27017")) eq_refl).
Defined.

(** X15: a status check that has just been posted is in the listing, with
    its id, its client name and its time as the store keeps it, when fewer
    than 1000 checks were stored before; with 1000 or more the listing is
    what it was, and it never has more than 1000 entries. *)
Theorem status_check_listed (stored_time : Time -> Time) (fresh_id : string)
    (now : Time) (input : Server.StatusCheckCreate)
    (status_checks : list Server.StatusCheck) :
  let out := Server.create_status_check stored_time fresh_id now input status_checks in
  fst out = Server.mkStatusCheck fresh_id (Server.input_client_name input) now /\
  (length (Server.get_status_checks (snd out)) <= 1000)%nat /\
  ((length status_checks < 1000)%nat ->
   Server.get_status_checks (snd out) =
     (status_checks ++
      [Server.mkStatusCheck fresh_id (Server.input_client_name input)
                            (stored_time now)])%list) /\
  ((1000 <= length status_checks)%nat ->
   Server.get_status_checks (snd out) = Server.get_status_checks status_checks).
Proof.
  intros out. subst out.
  unfold Server.create_status_check, Server.get_status_checks. cbn [fst snd].
  cbn [Server.id Server.client_name Server.timestamp].
  split; [reflexivity|]. split; [apply firstn_le_length|]. split.
  - intros Hlt. apply firstn_all2. rewrite length_app. simpl. lia.
  - intros Hge. rewrite firstn_app.
    replace (1000 - length status_checks)%nat with 0%nat by lia.
    rewrite firstn_O, app_nil_r. reflexivity.
Qed.

Lemma status_check_listed_witness :
  (length (@nil Server.StatusCheck) < 1000)%nat /\
  Server.get_status_checks
    (snd (Server.create_status_check Samples.millis "c-1" 1234567%Z
            (Server.mkStatusCheckCreate "kiosk") [])) =
    [Server.mkStatusCheck "c-1" "kiosk" 1234000%Z].
Proof.
  assert (H : (length (@nil Server.StatusCheck) < 1000)%nat) by (simpl; lia).
  split; [exact H|].
  exact (proj1 (proj2 (proj2 (status_check_listed Samples.millis "c-1" 1234567%Z
                                (Server.mkStatusCheckCreate "kiosk") []))) H).
Defined.

(** ** [server_vercel.py] *)

Lemma get_mongo_client_cases {Client : Type} (db_name : string)
    (made : string + Client) (g : Vercel.Globals Client) :
  Vercel.get_mongo_client db_name made g =
  match Vercel.client g, made with
  | Some _, _ => ((Vercel.client g, Vercel.db g), g)
  | None, inr c =>
      ((Some c, Some (c, db_name)), Vercel.mkGlobals (Some c) (Some (c, db_name)))
  | None, inl _ => ((None, None), Vercel.initial)
  end.
Proof.
  unfold Vercel.get_mongo_client. destruct (Vercel.client g), made; reflexivity.
Qed.

Lemma step_globals {Client : Type} (db_name : string) (g : Vercel.Globals Client)
    (c : Vercel.Call Client) :
  Vercel.step db_name g c = g \/
  exists made, Vercel.step db_name g c = snd (Vercel.get_mongo_client db_name made g).
Proof.
  destruct c as [made|made|made ping now|]; simpl.
  - right. exists made. reflexivity.
  - right. exists made. unfold Vercel.get_database.
    destruct (Vercel.get_mongo_client db_name made g) as [[cl [d|]] g']; reflexivity.
  - right. exists made. unfold Vercel.health_check.
    destruct (Vercel.get_mongo_client db_name made g) as [[[cl|] [d|]] g'];
      try reflexivity.
    destruct (ping cl); reflexivity.
  - left. unfold Vercel.shutdown_db_client. destruct (Vercel.client g); reflexivity.
Qed.

Lemma run_consistent {Client : Type} (db_name : string)
    (calls : list (Vercel.Call Client)) (g : Vercel.Globals Client) :
  (Vercel.client g = None /\ Vercel.db g = None) \/
  (exists c, Vercel.client g = Some c /\ Vercel.db g = Some (c, db_name)) ->
  let g' := Vercel.run db_name calls g in
  (Vercel.client g' = None /\ Vercel.db g' = None) \/
  (exists c, Vercel.client g' = Some c /\ Vercel.db g' = Some (c, db_name)).
Proof.
  revert g. induction calls as [|c calls IH]; intros g Hg; [exact Hg|].
  simpl. apply IH.
  destruct (step_globals db_name g c) as [->|[made ->]]; [exact Hg|].
  rewrite get_mongo_client_cases.
  destruct (Vercel.client g) as [cl|] eqn:Hcl.
  - cbn [snd]. rewrite Hcl. exact Hg.
  - destruct made as [e|c0]; simpl; [left; auto|right; exists c0; auto].
Qed.

(** X16: whatever calls have been made and however client creation and
    pings went, the two globals agree: both are unset, or [db] is the
    database named by [DB_NAME] on the very client held in [client]. *)
Theorem vercel_globals_agree (Client : Type) (db_name : string)
    (calls : list (Vercel.Call Client)) :
  let g := Vercel.run db_name calls Vercel.initial in
  (Vercel.client g = None /\ Vercel.db g = None) \/
  (exists c, Vercel.client g = Some c /\ Vercel.db g = Some (c, db_name)).
Proof. apply run_consistent. left. split; reflexivity. Qed.

(** X17: the client is created once.  As soon as one is held, no call
    replaces it or creates another, whatever a new creation would give;
    while none is held, a failed creation leaves the globals unset, so the
    next call tries again and keeps the client it gets. *)
Theorem vercel_client_created_once (Client : Type) (db_name : string)
    (g : Vercel.Globals Client) :
  (forall c calls,
     Vercel.client g = Some c ->
     Vercel.run db_name calls g = g /\
     forall made, Vercel.get_mongo_client db_name made g = ((Some c, Vercel.db g), g)) /\
  (forall e c,
     Vercel.client g = None ->
     Vercel.get_mongo_client db_name (inl e) g = ((None, None), Vercel.initial) /\
     Vercel.get_mongo_client db_name (inr c)
       (snd (Vercel.get_mongo_client db_name (inl e) g)) =
       ((Some c, Some (c, db_name)), Vercel.mkGlobals (Some c) (Some (c, db_name)))).
Proof.
  split.
  - intros c calls Hc. split.
    + induction calls as [|call calls IH]; [reflexivity|].
      simpl. destruct (step_globals db_name g call) as [->|[made ->]]; [exact IH|].
      rewrite get_mongo_client_cases, Hc. exact IH.
    + intros made. rewrite get_mongo_client_cases, Hc. reflexivity.
  - intros e c Hnone. rewrite !get_mongo_client_cases, Hnone. split; reflexivity.
Qed.

Lemma vercel_client_created_once_witness :
  Vercel.run "xfas_logistics"
    [ Vercel.CallGetDatabase (inl "timeout");
      Vercel.CallGetMongoClient (inr 1%nat);
      Vercel.CallShutdown;
      Vercel.CallGetDatabase (inr 2%nat);
      Vercel.CallHealthCheck (inr 3%nat) (fun _ => inl "closed") 50%Z ]
    (Vercel.mkGlobals (Some 7%nat) (Some (7%nat, "xfas_logistics"))) =
  Vercel.mkGlobals (Some 7%nat) (Some (7%nat, "xfas_logistics")).
Proof.
  apply (proj1 (vercel_client_created_once nat "xfas_logistics"
                  (Vercel.mkGlobals (Some 7%nat) (Some (7%nat, "xfas_logistics"))))
           7%nat).
  reflexivity.
Defined.

(** X18: in any state the calls can lead to, [get_database] hands out the
    database of the client held, or of the client it has just created and
    now holds; it raises HTTP 503 "Database not available" exactly when no
    client is held and creating one fails, and then holds none. *)
Theorem vercel_get_database (Client : Type) (db_name : string)
    (calls : list (Vercel.Call Client)) (made : string + Client) :
  let g := Vercel.run db_name calls Vercel.initial in
  let out := Vercel.get_database db_name made g in
  match Vercel.client g, made with
  | Some c, _ => fst out = inr (c, db_name) /\ snd out = g
  | None, inr c =>
      fst out = inr (c, db_name) /\
      snd out = Vercel.mkGlobals (Some c) (Some (c, db_name))
  | None, inl _ =>
      fst out = inl (HTTPException 503 "Database not available") /\
      snd out = Vercel.initial
  end.
Proof.
  intros g out. subst out.
  pose proof (vercel_state := run_consistent db_name calls Vercel.initial
                                (or_introl (conj eq_refl eq_refl))).
  fold g in vercel_state. cbv zeta in vercel_state.
  unfold Vercel.get_database. rewrite get_mongo_client_cases.
  destruct vercel_state as [[Hc Hd]|(c & Hc & Hd)].
  - rewrite Hc. destruct made; split; reflexivity.
  - rewrite Hc, Hd. split; reflexivity.
Qed.

(** X19: in any state the calls can lead to, [health_check] answers with a
    dictionary and never raises.  Its status is "healthy" exactly when a
    client is held or has just been created and the ping on it succeeds;
    otherwise it is "unhealthy", with "not_initialized" when there is no
    client and with the ping's error message when the ping failed.  The
    time of the call is in the answer either way. *)
Theorem vercel_health_check (Client : Type) (db_name : string)
    (calls : list (Vercel.Call Client)) (made : string + Client)
    (ping : Client -> string + unit) (now : Time) :
  let g := Vercel.run db_name calls Vercel.initial in
  let answer := fst (Vercel.health_check db_name made ping now g) in
  let used :=
    match Vercel.client g, made with
    | Some c, _ => Some c
    | None, inr c => Some c
    | None, inl _ => None
    end in
  CarrierService.get answer "timestamp" = Some (Vercel.FTime now) /\
  match used with
  | None =>
      CarrierService.get answer "status" = Some (Vercel.FStr "unhealthy") /\
      CarrierService.get answer "database" = Some (Vercel.FStr "not_initialized")
  | Some c =>
      match ping c with
      | inr _ =>
          CarrierService.get answer "status" = Some (Vercel.FStr "healthy") /\
          CarrierService.get answer "database" = Some (Vercel.FStr "connected")
      | inl e =>
          CarrierService.get answer "status" = Some (Vercel.FStr "unhealthy") /\
          CarrierService.get answer "database" = Some (Vercel.FStr "disconnected") /\
          CarrierService.get answer "error" = Some (Vercel.FStr e)
      end
  end.
Proof.
  intros g answer used. subst answer used.
  pose proof (vercel_state := run_consistent db_name calls Vercel.initial
                                (or_introl (conj eq_refl eq_refl))).
  fold g in vercel_state. cbv zeta in vercel_state.
  unfold Vercel.health_check. rewrite get_mongo_client_cases.
  destruct vercel_state as [[Hc Hd]|(c & Hc & Hd)].
  - rewrite Hc. destruct made as [e|c]; cbn [fst].
    + repeat split.
    + destruct (ping c); repeat split.
  - rewrite Hc, Hd. cbn [fst]. destruct (ping c); repeat split.
Qed.

(** ** What the writing handlers store *)

(** X20: when the owner cancels a booking that is not terminal and the
    service returns a shipment, [cancel_booking] answers "Booking
    cancelled successfully" and the database holds that shipment in the
    place of the booking that was read; every other shipment and every
    quote is as before, and the write is the only one made. *)
Theorem cancel_booking_persists {Env Response : Type}
    (svc : BookingService Env Response) (format_status : ShipmentStatus -> string)
    (env : Env) (booking_id : string) (u : User) (db : Db) (s s' : Shipment) :
  find (has_id booking_id) (shipments db) = Some s ->
  user_id s = user_ident u ->
  ~ In (status s) [DELIVERED; CANCELLED; RETURNED] ->
  update_shipment_status svc env s CANCELLED "XFas Logistics Hub"
                         "Shipment cancelled by customer" = inr s' ->
  let out := cancel_booking svc format_status env booking_id u db in
  fst out = inr [("message", "Booking cancelled successfully")] /\
  quotes (snd out) = quotes db /\
  Forall2 (fun a b => b = a \/ (a = s /\ b = s')) (shipments db) (shipments (snd out)) /\
  filter is_write (trace (snd out)) =
    (filter is_write (trace db) ++ [OpSetShipment booking_id s'])%list.
Proof.
  intros Hfind Hown Hterm Hsvc out. subst out.
  rewrite (cancel_booking_run svc format_status env booking_id u db s s'
             Hfind Hown Hterm Hsvc).
  cbn [fst snd shipments quotes trace].
  split; [reflexivity|]. split; [reflexivity|]. split.
  - apply (update_first_found_pointwise _ (fun _ => s') _ s Hfind).
  - rewrite filter_app. reflexivity.
Qed.

Lemma cancel_booking_persists_witness :
  fst (cancel_booking Demo.engine Demo.format_status (200%Z, "S9") "B1" Demo.alice Demo.db0) =
    inr [("message", "Booking cancelled successfully")] /\
  shipments (snd (cancel_booking Demo.engine Demo.format_status (200%Z, "S9") "B1"
                    Demo.alice Demo.db0)) =
    [Lifecycle.with_event 200%Z CANCELLED "XFas Logistics Hub"
       "Shipment cancelled by customer" Demo.B1; Demo.B2].
Proof.
  split; [|vm_compute; reflexivity].
  refine (proj1 (cancel_booking_persists Demo.engine Demo.format_status (200%Z, "S9")
                   "B1" Demo.alice Demo.db0 Demo.B1 _ eq_refl eq_refl _ eq_refl)).
  simpl. intros [H|[H|[H|[]]]]; discriminate H.
Defined.

(** X21: when the owner asks for simulated progress and the service
    returns a shipment, [simulate_booking_progress] answers with that
    shipment's response and the database holds it in the place of the
    booking that was read, whatever the booking's status was; every other
    shipment and every quote is as before. *)
Theorem simulate_booking_progress_persists {Env Response : Type}
    (svc : BookingService Env Response) (env : Env) (booking_id : string)
    (u : User) (db : Db) (s s' : Shipment) :
  find (has_id booking_id) (shipments db) = Some s ->
  user_id s = user_ident u ->
  simulate_shipment_progress svc env s = inr s' ->
  let out := simulate_booking_progress svc env booking_id u db in
  fst out = inr (process_shipment_response svc s') /\
  quotes (snd out) = quotes db /\
  Forall2 (fun a b => b = a \/ (a = s /\ b = s')) (shipments db) (shipments (snd out)) /\
  filter is_write (trace (snd out)) =
    (filter is_write (trace db) ++ [OpSetShipment booking_id s'])%list.
Proof.
  intros Hfind Hown Hsvc out. subst out.
  rewrite (simulate_booking_progress_run svc env booking_id u db s s' Hfind Hown Hsvc).
  cbn [fst snd shipments quotes trace].
  split; [reflexivity|]. split; [reflexivity|]. split.
  - apply (update_first_found_pointwise _ (fun _ => s') _ s Hfind).
  - rewrite filter_app. reflexivity.
Qed.

Lemma simulate_booking_progress_persists_witness :
  fst (simulate_booking_progress Demo.engine (200%Z, "S9") "B1" Demo.alice Demo.db0) =
    inr (Lifecycle.simulate_progress Demo.synthetic_location Demo.synthetic_description
           200%Z Demo.B1) /\
  filter is_write
    (trace (snd (simulate_booking_progress Demo.engine (200%Z, "S9") "B1"
                   Demo.alice Demo.db0))) =
    [OpSetShipment "B1"
       (Lifecycle.simulate_progress Demo.synthetic_location Demo.synthetic_description
          200%Z Demo.B1)].
Proof.
  destruct (simulate_booking_progress_persists Demo.engine (200%Z, "S9") "B1"
              Demo.alice Demo.db0 Demo.B1 _ eq_refl eq_refl eq_refl)
    as (Hr & _ & _ & Ht).
  split; [exact Hr | exact Ht].
Defined.


